(** * Drug Sales Data Visualization Tool: a shallow embedding

    The program under study is the single script [statistik_deskriptif.py]:
    a file loader, a date-column detection step, four chart renderers, two
    report writers and the top-level interaction handler.

    Python values are modelled as follows.
    - [str] is [string]; a character is a code point below 256.
    - a pandas frame is a list of named columns, in column order;
    - the calls into pandas, matplotlib, seaborn, reportlab and
      python-docx whose results the script only passes along, the
      plotting calls among them, are fields of a [Library] record, each
      of them allowed to raise;
    - the script's effects (widgets drawn, pyplot figures opened, temporary
      files) live in a [World] that is threaded through a state-and-exception
      monad. *)

From Stdlib Require Import ZArith Ascii String.
From stdpp Require Import base list strings gmap sorting.

Local Open Scope list_scope.
Local Open Scope stdpp_scope.

(** ** Python strings *)

Module PyStr.

(** [str.isspace] on the code points below 256: TAB..CR, FS..US, SPACE,
    NEL and NBSP. [str.split()] separates on exactly these. *)
Definition isspace (c : ascii) : bool :=
  let n := N_of_ascii c in
  ((9 <=? n) && (n <=? 13) || (28 <=? n) && (n <=? 32)
   || (n =? 133) || (n =? 160))%N.

Definition len (s : string) : nat := String.length s.

(** Truthiness of a [str]: non-empty. *)
Definition truthy (s : string) : bool :=
  match s with EmptyString => false | String _ _ => true end.

(** [s.split()]: [cur] is the word being scanned. Runs of whitespace
    separate words; leading and trailing whitespace yields no word. *)
Fixpoint split_go (cur : string) (s : string) : list string :=
  match s with
  | EmptyString => if truthy cur then [cur] else []
  | String c s' =>
      if isspace c
      then (if truthy cur then cur :: split_go "" s' else split_go "" s')
      else split_go (cur +:+ String c "") s'
  end.

Definition split (s : string) : list string := split_go "" s.

(** [''.join(l)]. *)
Definition join (l : list string) : string := foldr String.append "" l.

(** Every character of [s] is not whitespace. *)
Fixpoint spaceless (s : string) : bool :=
  match s with
  | EmptyString => true
  | String c s' => negb (isspace c) && spaceless s'
  end.

(** [s.endswith(suffix)]. *)
Definition endswith (s suffix : string) : bool :=
  bool_decide (list_ascii_of_string suffix `suffix_of` list_ascii_of_string s).

End PyStr.

(** ** The description wrapper of [create_pdf_report] (lines 118-129) *)

Module Wrap.
Import PyStr.

(** One iteration of [for word in words]; the state is [(lines, line)]. *)
Definition wrap_step (st : list string * string) (word : string)
  : list string * string :=
  let '(lines, line) := st in
  if (len (line +:+ word) + 1 <=? 80)%nat
  then (lines, line +:+ (word +:+ " "))
  else (lines ++ [line], word +:+ " ").

(** The whole loop followed by [if line: lines.append(line)]. *)
Definition wrap_words (words : list string) : list string :=
  let '(lines, line) := fold_left wrap_step words ([], "") in
  if truthy line then lines ++ [line] else lines.

Definition wrap_description (description : string) : list string :=
  wrap_words (split description).

(** Greedy packing as the specification words it: the words are taken in
    order; a word joins the current line while the line, the word and one
    separator stay within [limit]; otherwise the current line is closed
    and a new one starts with that word. *)
Fixpoint greedy_pack (limit : nat) (line : string) (words : list string)
  : list string :=
  match words with
  | [] => if truthy line then [line] else []
  | w :: ws =>
      if (len line + len w + 1 <=? limit)%nat
      then greedy_pack limit (line +:+ w +:+ " ") ws
      else line :: greedy_pack limit (w +:+ " ") ws
  end.

(** A [good] word is what [split] produces: non-empty, no whitespace. *)
Definition good (w : string) : Prop := truthy w = true ∧ spaceless w = true.

(** The words written one after the other, each with its separator. *)
Definition spaced (ws : list string) : string :=
  join (map (λ w, w +:+ " ") ws).

(** What the claim about line lengths allows for a line: within the
    limit, or one word of the text, too long to fit, alone on its line. *)
Definition line_ok (words : list string) (l : string) : Prop :=
  len l ≤ 80 ∨ ∃ w, w ∈ words ∧ 79 < len w ∧ l = w +:+ " ".

End Wrap.

(** ** Python results, dates, uploads *)

(** The text of a raised [Exception], as [f"{e}"] prints it. *)
Definition Exn := string.

Inductive Result (A : Type) : Type :=
  | Ok (a : A)
  | Raise (e : Exn).
Arguments Ok {A} a.
Arguments Raise {A} e.

Record Timestamp := mkTimestamp { year : Z; month : Z; day : Z }.

Definition bytes := list Byte.byte.

(** Streamlit's [UploadedFile]: the file name, the MIME type the browser
    reported, and the content, held in memory. *)
Record UploadedFile := mkUpload {
  name : string;
  type : string;
  data : bytes
}.

Inductive ChartType := TimeSeries | BoxPlotChart | CorrelationHeatmap | AnnualSales.

Inductive Parser := CsvParser | ExcelParser.

(** The names the script's own functions are called by (ghost trace). *)
Inductive Call :=
  | call_time_series_plot | call_boxplot | call_heatmap | call_annual_sales
  | call_pdf_report | call_word_report.

(** ** Documents *)

(** [pdf_image] and the image of a [Picture] are the streams the two
    libraries store, not the file they were given. *)
Record PdfDoc := mkPdf {
  pdf_title : string;
  pdf_label : string;
  pdf_text : list string;
  pdf_image : bytes
}.

Inductive Block :=
  | Heading (text : string) (level : Z)
  | Paragraph (text : string)
  | Picture (image : bytes) (width_in : Z).

Inductive Buffer :=
  | PdfBuffer (doc : PdfDoc)
  | DocxBuffer (doc : list Block).

(** The image a document embeds. *)
Definition docx_image (doc : list Block) : option bytes :=
  last (omap (λ b, match b with Picture i _ => Some i | _ => None end) doc).

Definition image_payload (b : Buffer) : option bytes :=
  match b with
  | PdfBuffer d => Some (pdf_image d)
  | DocxBuffer d => docx_image d
  end.

(** The anchor built by [get_download_link]; the base64 text of the
    buffer is kept as the buffer itself. *)
Record Link := mkLink {
  href_data : Buffer;
  download : string;
  link_text : string
}.

(** ** Frames and figures over a cell type *)

Section Frames.
Context {Cell : Type}.

(** A pandas frame: the index is [None] for the default range index and
    [Some dates] once a date column was moved there. *)
Record DataFrame := mkFrame {
  index : option (list Timestamp);
  columns : list (string * list Cell)
}.

Definition column_names (df : DataFrame) : list string := (columns df).*1.

(** First column carrying the label. *)
Fixpoint assoc {V : Type} (k : string) (l : list (string * V)) : option V :=
  match l with
  | [] => None
  | (k', v) :: l' => if decide (k' = k) then Some v else assoc k l'
  end.

(** [df[name]]. *)
Definition getitem (df : DataFrame) (col : string) : Result (list Cell) :=
  match assoc col (columns df) with
  | Some cells => Ok cells
  | None => Raise col
  end.

(** [df[names]] with a list of labels: the columns in the order asked
    for, [KeyError] when one is missing. The exception carries the
    missing label; pandas words its text differently from call to call. *)
Fixpoint getitems (cols : list (string * list Cell)) (names : list string)
  : Result (list (string * list Cell)) :=
  match names with
  | [] => Ok []
  | n :: ns =>
      match assoc n cols with
      | None => Raise n
      | Some cells =>
          match getitems cols ns with
          | Ok rest => Ok ((n, cells) :: rest)
          | Raise e => Raise e
          end
      end
  end.

(** [frame[names]] on a frame whose labels may repeat, as the result of
    a selection with a repeated label does: every column that carries
    the label, for each label asked for; [KeyError] when a label has
    none. On labels that are all different it is [getitems]. *)
Fixpoint getitems_every (cols : list (string * list Cell)) (names : list string)
  : Result (list (string * list Cell)) :=
  match names with
  | [] => Ok []
  | n :: ns =>
      match filter (λ kv, kv.1 = n) cols with
      | [] => Raise n
      | hits =>
          match getitems_every cols ns with
          | Ok rest => Ok (hits ++ rest)
          | Raise e => Raise e
          end
      end
  end.

(** [df[name] = values]: replaces the column in place when the label
    exists, appends it as the last column otherwise. *)
Fixpoint setitem (cols : list (string * list Cell)) (col : string)
    (values : list Cell) : list (string * list Cell) :=
  match cols with
  | [] => [(col, values)]
  | (k, v) :: rest =>
      if decide (k = col) then (k, values) :: rest
      else (k, v) :: setitem rest col values
  end.

(** [df.set_index(name, inplace=True)] after the column was converted:
    the dates become the index and the column leaves the frame. *)
Definition set_index (df : DataFrame) (col : string) (dates : list Timestamp)
  : DataFrame :=
  {| index := Some dates;
     columns := filter (λ kv, kv.1 ≠ col) (columns df) |}.

(** [df.head()]: the first five rows. *)
Definition head (df : DataFrame) : DataFrame :=
  {| index := take 5 <$> index df;
     columns := prod_map id (take 5) <$> columns df |}.

(** [frame.melt(var_name, value_name)]: one (label, value) row per cell,
    column after column. *)
Definition melt (cols : list (string * list Cell)) : list (string * Cell) :=
  flat_map (λ kv, pair kv.1 <$> kv.2) cols.

(** [groupby(key)] on one column: the cells of each key, in row order. *)
Definition group_step (m : gmap Z (list Cell)) (row : Z * Cell)
  : gmap Z (list Cell) :=
  <[row.1 := default [] (m !! row.1) ++ [row.2]]> m.

Definition group_cells (keys : list Z) (cells : list Cell)
  : gmap Z (list Cell) :=
  fold_left group_step (zip keys cells) ∅.

(** The group keys as the result's index shows them: once each,
    ascending ([sort=True] is the default of [groupby]). *)
Definition group_keys (keys : list Z) : list Z :=
  merge_sort Z.le (remove_dups keys).

(** The rows of a column whose key is [y], in row order. *)
Definition rows_of_year (y : Z) (keys : list Z) (cells : list Cell)
  : list Cell :=
  (filter (λ row, row.1 = y) (zip keys cells)).*2.

(** *** What a figure holds *)

Record Line := mkLine {
  line_x : option (list Timestamp);
  line_y : list Cell;
  line_label : string
}.

Inductive Plot :=
  | LinePlot (line : Line)
  | BoxPlot (x y : string) (data : list (string * Cell))
  | Heatmap (labels : list string) (matrix : list (list Cell))
      (annot : bool) (cmap fmt : string)
  | BarPlot (years : list Z) (series : list (string * list Cell)).

Record Axes := mkAxes {
  figsize : Z * Z;
  plots : list Plot;
  xlabel : string;
  ylabel : string;
  title : string;
  legend : option string;
  grid : bool;
  xticks_rotation : Z;
  tight_layout : bool
}.

Definition blank_axes (size : Z * Z) : Axes :=
  {| figsize := size; plots := []; xlabel := ""; ylabel := ""; title := "";
     legend := None; grid := false; xticks_rotation := 0;
     tight_layout := false |}.

Definition add_plot (p : Plot) (a : Axes) : Axes :=
  {| figsize := figsize a; plots := plots a ++ [p]; xlabel := xlabel a;
     ylabel := ylabel a; title := title a; legend := legend a;
     grid := grid a; xticks_rotation := xticks_rotation a;
     tight_layout := tight_layout a |}.

(** [ax.plot(x, y, label=...)] adds one line to the line plot. *)
Definition add_line (l : Line) (a : Axes) : Axes :=
  add_plot (LinePlot l) a.

Definition set_xlabel (s : string) (a : Axes) : Axes :=
  {| figsize := figsize a; plots := plots a; xlabel := s;
     ylabel := ylabel a; title := title a; legend := legend a;
     grid := grid a; xticks_rotation := xticks_rotation a;
     tight_layout := tight_layout a |}.

Definition set_ylabel (s : string) (a : Axes) : Axes :=
  {| figsize := figsize a; plots := plots a; xlabel := xlabel a;
     ylabel := s; title := title a; legend := legend a;
     grid := grid a; xticks_rotation := xticks_rotation a;
     tight_layout := tight_layout a |}.

Definition set_title (s : string) (a : Axes) : Axes :=
  {| figsize := figsize a; plots := plots a; xlabel := xlabel a;
     ylabel := ylabel a; title := s; legend := legend a;
     grid := grid a; xticks_rotation := xticks_rotation a;
     tight_layout := tight_layout a |}.

Definition set_legend (ttl : string) (a : Axes) : Axes :=
  {| figsize := figsize a; plots := plots a; xlabel := xlabel a;
     ylabel := ylabel a; title := title a; legend := Some ttl;
     grid := grid a; xticks_rotation := xticks_rotation a;
     tight_layout := tight_layout a |}.

Definition set_grid (a : Axes) : Axes :=
  {| figsize := figsize a; plots := plots a; xlabel := xlabel a;
     ylabel := ylabel a; title := title a; legend := legend a;
     grid := true; xticks_rotation := xticks_rotation a;
     tight_layout := tight_layout a |}.

Definition set_xticks_rotation (r : Z) (a : Axes) : Axes :=
  {| figsize := figsize a; plots := plots a; xlabel := xlabel a;
     ylabel := ylabel a; title := title a; legend := legend a;
     grid := grid a; xticks_rotation := r;
     tight_layout := tight_layout a |}.

Definition set_tight_layout (a : Axes) : Axes :=
  {| figsize := figsize a; plots := plots a; xlabel := xlabel a;
     ylabel := ylabel a; title := title a; legend := legend a;
     grid := grid a; xticks_rotation := xticks_rotation a;
     tight_layout := true |}.

(** The value at the position the key [y] has among [keys]. *)
Fixpoint aligned {V : Type} (y : Z) (keys : list Z) (vals : list V) : option V :=
  match keys, vals with
  | k :: keys', v :: vals' =>
      if decide (k = y) then Some v else aligned y keys' vals'
  | _, _ => None
  end.

(** The height of the bar of column [col] in year [y]. *)
Definition bar_value_in (p : Plot) (col : string) (y : Z) : option Cell :=
  match p with
  | BarPlot years series => vals ← assoc col series; aligned y years vals
  | _ => None
  end.

Definition bar_value (a : Axes) (col : string) (y : Z) : option Cell :=
  p ← last (plots a); bar_value_in p col y.

(** *** What the page shows, and the world the script runs in *)

Inductive Element :=
  | Info (msg : string)
  | Error (msg : string)
  | Warning (msg : string)
  | Header (text : string)
  | Subheader (text : string)
  | Dataframe (df : DataFrame)
  | Multiselect (label : string) (options default : list string)
  | Selectbox (label : string) (options : list ChartType)
  | TextInput (label value : string)
  | TextArea (label value : string) (max_chars : nat)
  | Button (label : string)
  | Pyplot (fig : Axes)
  | Columns (n : nat)
  | Markdown (link : Link).

Record World := mkWorld {
  ui : list Element;          (* elements written to the page, in order *)
  figures : list Axes;        (* pyplot's open figures; a handle is a position *)
  files : gmap nat bytes;     (* the temporary directory *)
  calls : list Call           (* ghost: script functions entered *)
}.

(** The external calls, each of which may raise: the two pandas parsers,
    [pd.to_datetime] on a column, the integer pandas stores for a year,
    the sum of a group's cells, [DataFrame.corr]; the plotting calls
    [ax.plot], [sns.boxplot], [sns.heatmap] and [DataFrame.plot(kind='bar')],
    which raise on data they cannot draw (text cells, no numeric column);
    [fig.savefig] with its format, dpi and bounding box; [canvas.drawImage]
    and [canvas.save] of reportlab; [add_paragraph], [add_picture] and
    [save] of python-docx. The two embedding calls return the image as
    the document stores it: reportlab decodes the file and writes its
    pixels as a stream of its own, python-docx keeps the file's bytes.
    A call is a function of its arguments, and it changes nothing but
    what it returns: the same figure rasterizes to the same bytes, and
    [savefig] leaves the figure as it is. *)
Record Library := mkLibrary {
  read_csv : UploadedFile → Result DataFrame;
  read_excel : UploadedFile → Result DataFrame;
  to_datetime : list Cell → Result (list Timestamp);
  cell_of_year : Z → Cell;
  agg_sum : list Cell → Cell;
  corr : list (string * list Cell) → Result (list (list Cell));
  ax_plot : option (list Timestamp) → list Cell → Result unit;
  sns_boxplot : list (string * Cell) → Result unit;
  sns_heatmap : list string → list (list Cell) → Result unit;
  plot_bar : list Z → list (string * list Cell) → Result unit;
  savefig : Axes → string → Z → string → Result bytes;
  draw_image : bytes → Result bytes;
  canvas_save : PdfDoc → Result unit;
  add_paragraph : string → Result unit;
  add_picture : bytes → Result bytes;
  document_save : list Block → Result unit
}.

End Frames.

Arguments DataFrame : clear implicits.
Arguments Line : clear implicits.
Arguments Plot : clear implicits.
Arguments Axes : clear implicits.
Arguments Element : clear implicits.
Arguments World : clear implicits.
Arguments Library : clear implicits.

(** ** The script monad: a world and Python exceptions *)

Section Monad.
Context {Cell : Type}.

Definition M (A : Type) : Type := World Cell → World Cell * Result A.

Definition ret {A} (a : A) : M A := λ w, (w, Ok a).

Definition bind {A B} (m : M A) (k : A → M B) : M B :=
  λ w, match m w with
       | (w', Ok a) => k a w'
       | (w', Raise e) => (w', Raise e)
       end.

Definition raise {A} (e : Exn) : M A := λ w, (w, Raise e).

(** An external call: its result or its exception, the world untouched. *)
Definition lift {A} (r : Result A) : M A := λ w, (w, r).

(** [try: body except Exception as e: handler(e)]. *)
Definition try_except {A} (body : M A) (handler : Exn → M A) : M A :=
  λ w, match body w with
       | (w', Ok a) => (w', Ok a)
       | (w', Raise e) => handler e w'
       end.

Definition with_ui (f : list (Element Cell) → list (Element Cell))
    (w : World Cell) : World Cell :=
  {| ui := f (ui w); figures := figures w; files := files w; calls := calls w |}.

Definition with_figures (f : list (Axes Cell) → list (Axes Cell))
    (w : World Cell) : World Cell :=
  {| ui := ui w; figures := f (figures w); files := files w; calls := calls w |}.

Definition with_files (f : gmap nat bytes → gmap nat bytes)
    (w : World Cell) : World Cell :=
  {| ui := ui w; figures := figures w; files := f (files w); calls := calls w |}.

Definition with_calls (f : list Call → list Call) (w : World Cell) : World Cell :=
  {| ui := ui w; figures := figures w; files := files w; calls := f (calls w) |}.

(** A Streamlit call that writes one element to the page. *)
Definition st (e : Element Cell) : M unit :=
  λ w, (with_ui (λ l, l ++ [e]) w, Ok tt).

(** Ghost: a script function was entered. *)
Definition enter (c : Call) : M unit :=
  λ w, (with_calls (λ l, l ++ [c]) w, Ok tt).

(** [fig, ax = plt.subplots(figsize=...)]: a new, blank figure is
    opened and registered with pyplot; the handle is its position. *)
Definition subplots (size : Z * Z) : M nat :=
  λ w, (with_figures (λ l, l ++ [blank_axes size]) w, Ok (length (figures w))).

(** A call that changes the figure in place. *)
Definition on_axes (fig : nat) (f : Axes Cell → Axes Cell) : M unit :=
  λ w, (with_figures (alter f fig) w, Ok tt).

(** A pyplot call that names no figure, as [plt.tight_layout()] and
    [plt.xticks(...)]: it acts on pyplot's current figure. That is the
    figure opened last, since the script makes no other figure current
    and closes none. (With no figure open pyplot would open one; the
    script calls these after [plt.subplots] only.) *)
Definition on_current (f : Axes Cell → Axes Cell) : M unit :=
  λ w, (with_figures (λ l, alter f (pred (length l)) l) w, Ok tt).

(** Reading the figure behind a handle. A handle the script holds always
    names a figure; the exception is for the handles it never makes. *)
Definition figure (fig : nat) : M (Axes Cell) :=
  λ w, match figures w !! fig with
       | Some a => (w, Ok a)
       | None => (w, Raise "figure")
       end.

(** [tempfile.NamedTemporaryFile(suffix='.png', delete=False)]: a new,
    empty file under a name not in use. Paths are numbers here; the
    directory is the map [files]. *)
Definition named_temporary_file : M nat :=
  λ w, let path := fresh (dom (files w)) in
       (with_files (insert path []) w, Ok path).

Definition write_file (path : nat) (content : bytes) : M unit :=
  λ w, (with_files (insert path content) w, Ok tt).

Definition read_file (path : nat) : M bytes :=
  λ w, match files w !! path with
       | Some content => (w, Ok content)
       | None => (w, Raise "No such file or directory")
       end.

(** [os.unlink(path)]. *)
Definition unlink (path : nat) : M unit :=
  λ w, match files w !! path with
       | Some _ => (with_files (delete path) w, Ok tt)
       | None => (w, Raise "No such file or directory")
       end.

End Monad.

Arguments M : clear implicits.

Notation "x <- c1 ;; c2" := (bind c1 (λ x, c2))
  (at level 100, c1 at next level, right associativity).
Notation "c1 ;;; c2" := (bind c1 (λ _, c2))
  (at level 100, right associativity).

(** ** The script *)

Section Script.
Context {Cell : Type} (L : Library Cell).
Import PyStr Wrap.

Local Abbreviation Frame := (DataFrame Cell).
Local Abbreviation Run := (M Cell).

(** *** The four renderers (lines 33-98) *)

(** The body of [for drug in selected_drugs: ax.plot(...)]. *)
Fixpoint plot_lines (fig : nat) (df : Frame) (selected_drugs : list string)
  : Run unit :=
  match selected_drugs with
  | [] => ret tt
  | drug :: rest =>
      y <- lift (getitem df drug) ;;
      lift (ax_plot L (index df) y) ;;;
      on_axes fig (add_line {| line_x := index df; line_y := y;
                               line_label := drug |}) ;;;
      plot_lines fig df rest
  end.

Definition create_time_series_plot (df : Frame) (selected_drugs : list string)
  : Run nat :=
  enter call_time_series_plot ;;;
  fig <- subplots (12, 6)%Z ;;
  plot_lines fig df selected_drugs ;;;
  on_axes fig (set_xlabel "Date") ;;;
  on_axes fig (set_ylabel "Sales Volume") ;;;
  on_axes fig (set_title "Monthly Drug Sales Volume Over Time") ;;;
  on_axes fig (set_legend "") ;;;
  on_axes fig set_grid ;;;
  on_current set_tight_layout ;;;
  ret fig.

Definition create_boxplot (df : Frame) (selected_drugs : list string)
  : Run nat :=
  enter call_boxplot ;;;
  fig <- subplots (12, 6)%Z ;;
  picked <- lift (getitems (columns df) selected_drugs) ;;
  let plot_data := melt picked in
  lift (sns_boxplot L plot_data) ;;;
  on_axes fig (add_plot (BoxPlot "Drug Category" "Sales Volume" plot_data)) ;;;
  on_axes fig (set_xlabel "Drug Category") ;;;
  on_axes fig (set_ylabel "Sales Volume") ;;;
  on_axes fig (set_title "Distribution of Drug Sales Volume by Category") ;;;
  on_current (set_xticks_rotation 45) ;;;
  on_current set_tight_layout ;;;
  ret fig.

Definition create_heatmap (df : Frame) (selected_drugs : list string)
  : Run nat :=
  enter call_heatmap ;;;
  picked <- lift (getitems (columns df) selected_drugs) ;;
  corr_matrix <- lift (corr L picked) ;;
  fig <- subplots (10, 8)%Z ;;
  lift (sns_heatmap L picked.*1 corr_matrix) ;;;
  on_axes fig (add_plot (Heatmap picked.*1 corr_matrix true "coolwarm" ".2f")) ;;;
  on_axes fig (set_title "Correlation Between Drug Sales Categories") ;;;
  on_current set_tight_layout ;;;
  ret fig.

(** [df_yearly.groupby('Year')[selected_drugs].sum()]: per selected
    column, the sum of each year's cells; the rows of the result are
    the years in ascending order. *)
Definition yearly_sums (years : list Z) (cells : list Cell) : list Cell :=
  (λ y, agg_sum L (default [] (group_cells years cells !! y)))
    <$> group_keys years.

Definition create_annual_sales (df : Frame) (selected_drugs : list string)
  : Run nat :=
  enter call_annual_sales ;;;
  years <- match index df with
           | Some dates => ret (year <$> dates)
           | None => raise "'RangeIndex' object has no attribute 'year'"
           end ;;
  let df_yearly := setitem (columns df) "Year" (cell_of_year L <$> years) in
  picked <- lift (getitems df_yearly selected_drugs) ;;
  let yearly_sales := prod_map id (yearly_sums years) <$> picked in
  fig <- subplots (12, 6)%Z ;;
  shown <- lift (getitems_every yearly_sales selected_drugs) ;;
  lift (plot_bar L (group_keys years) shown) ;;;
  on_axes fig (add_plot (BarPlot (group_keys years) shown)) ;;;
  on_axes fig (set_xlabel "Year") ;;;
  on_axes fig (set_ylabel "Total Sales Volume") ;;;
  on_axes fig (set_title "Annual Drug Sales by Category") ;;;
  on_axes fig (set_legend "Drug Category") ;;;
  on_current set_tight_layout ;;;
  ret fig.

(** *** The two report writers (lines 101-173) *)

Definition create_pdf_report (fig : nat) (description : string) : Run Buffer :=
  enter call_pdf_report ;;;
  let lines := wrap_description description in
  temp_filename <- named_temporary_file ;;
  chart <- figure fig ;;
  png <- lift (savefig L chart "png" 300 "tight") ;;
  write_file temp_filename png ;;;
  image <- read_file temp_filename ;;
  stream <- lift (draw_image L image) ;;
  let doc := {| pdf_title := "Drug Sales Data Visualization Report";
                pdf_label := "Description:";
                pdf_text := lines;
                pdf_image := stream |} in
  lift (canvas_save L doc) ;;;
  unlink temp_filename ;;;
  ret (PdfBuffer doc).

Definition create_word_report (fig : nat) (description : string) : Run Buffer :=
  enter call_word_report ;;;
  let doc := [Heading "Drug Sales Data Visualization Report" 0;
              Heading "Description:" 1;
              Paragraph description] in
  lift (add_paragraph L description) ;;;
  temp_filename <- named_temporary_file ;;
  chart <- figure fig ;;
  png <- lift (savefig L chart "png" 300 "tight") ;;
  write_file temp_filename png ;;;
  let doc := doc ++ [Heading "Visualization:" 1] in
  image <- read_file temp_filename ;;
  blob <- lift (add_picture L image) ;;
  let doc := doc ++ [Picture blob 6] in
  lift (document_save L doc) ;;;
  unlink temp_filename ;;;
  ret (DocxBuffer doc).

Definition get_download_link (buffer : Buffer) (download_filename link_text : string)
  : Link :=
  {| href_data := buffer; download := download_filename; link_text := link_text |}.

(** *** One interaction (lines 181-284) *)

(** What the user has done on the page when the script reruns: the file
    in the uploader, the categories picked in the multiselect ([None] as
    long as the widget shows its default), the chart type, the two texts
    and whether the button was pressed. *)
Record Interaction := mkInteraction {
  uploaded_file : option UploadedFile;
  picked_drugs : option (list string);
  chart_type : ChartType;
  graph_title : string;
  graph_description : string;
  button_pressed : bool
}.

(** Lines 184-187: which parser reads the upload. *)
Definition choose_parser (f : UploadedFile) : Parser :=
  if endswith (name f) ".csv" then CsvParser else ExcelParser.

Definition run_parser (p : Parser) (f : UploadedFile) : Result Frame :=
  match p with
  | CsvParser => read_csv L f
  | ExcelParser => read_excel L f
  end.

(** Lines 194-198. *)
Definition explicit_date_column (df : Frame) : option string :=
  if bool_decide ("datum" ∈ column_names df) then Some "datum"
  else if bool_decide ("date" ∈ column_names df) then Some "date"
  else None.

(** Lines 203-204 and 213-214: convert the column, make it the index. *)
Definition index_by (df : Frame) (date_column : string) : Run Frame :=
  raw <- lift (getitem df date_column) ;;
  dates <- lift (to_datetime L raw) ;;
  ret (set_index df date_column dates).

Definition no_date_warning : string :=
  "No explicit date column found. Assuming first column is for dates.".

(** Lines 183-215: the table and its drug categories. *)
Definition load_table (f : UploadedFile) : Run (Frame * list string) :=
  df <- lift (run_parser (choose_parser f) f) ;;
  st (Subheader "Data Preview") ;;;
  st (Dataframe (head df)) ;;;
  match explicit_date_column df with
  | Some date_column =>
      df <- index_by df date_column ;;
      ret (df, column_names df)
  | None =>
      st (Warning no_date_warning) ;;;
      date_column <- match column_names df with
                     | c :: _ => ret c
                     | [] => raise "index 0 is out of bounds for axis 0 with size 0"
                     end ;;
      df <- index_by df date_column ;;
      ret (df, column_names df)
  end.

Definition default_selection (drug_categories : list string) : list string :=
  if (3 <=? length drug_categories)%nat then take 3 drug_categories
  else drug_categories.

(** What [st.multiselect] returns. *)
Definition selection (i : Interaction) (drug_categories : list string)
  : list string :=
  match picked_drugs i with
  | Some l => l
  | None => default_selection drug_categories
  end.

Definition default_description : string :=
  "This visualization shows the trends in drug sales volume over the analyzed period. The data reveals seasonal patterns and overall market trends for various pharmaceutical categories.".

(** Lines 218-241: the widgets; the value is the selection made. *)
Definition controls (i : Interaction) (drug_categories : list string)
  : Run (list string) :=
  st (Header "2. Create Visualization") ;;;
  st (Multiselect "Select drug categories to visualize:" drug_categories
        (default_selection drug_categories)) ;;;
  st (Selectbox "Select chart type:"
        [TimeSeries; BoxPlotChart; CorrelationHeatmap; AnnualSales]) ;;;
  st (TextInput "Graph Title" "Drug Sales Analysis") ;;;
  st (TextArea "Graph Description (max 80 words):" default_description 400) ;;;
  st (Button "Generate Visualization") ;;;
  ret (selection i drug_categories).

Definition render (c : ChartType) (df : Frame) (selected_drugs : list string)
  : Run nat :=
  match c with
  | TimeSeries => create_time_series_plot df selected_drugs
  | BoxPlotChart => create_boxplot df selected_drugs
  | CorrelationHeatmap => create_heatmap df selected_drugs
  | AnnualSales => create_annual_sales df selected_drugs
  end.

Definition empty_selection_message : string :=
  "Please select at least one drug category.".

(** Lines 245-279: the button handler. *)
Definition generate (i : Interaction) (df : Frame) (selected_drugs : list string)
  : Run unit :=
  match selected_drugs with
  | [] => st (Error empty_selection_message)
  | _ :: _ =>
      st (Subheader "3. Generated Visualization") ;;;
      fig <- render (chart_type i) df selected_drugs ;;
      chart <- figure fig ;;
      st (Pyplot chart) ;;;
      st (Header "4. Download Report") ;;;
      st (Columns 2) ;;;
      pdf_buffer <- create_pdf_report fig (graph_description i) ;;
      let pdf_link :=
        get_download_link pdf_buffer "drug_sales_report.pdf" "Download PDF Report" in
      docx_buffer <- create_word_report fig (graph_description i) ;;
      let docx_link :=
        get_download_link docx_buffer "drug_sales_report.docx" "Download Word Report" in
      st (Markdown pdf_link) ;;;
      st (Markdown docx_link)
  end.

(** The body of the [try]. *)
Definition try_body (f : UploadedFile) (i : Interaction) : Run unit :=
  loaded <- load_table f ;;
  selected_drugs <- controls i loaded.2 ;;
  if button_pressed i then generate i loaded.1 selected_drugs else ret tt.

Definition error_message (e : Exn) : string := "Error processing file: " +:+ e.

Definition main (i : Interaction) : Run unit :=
  match uploaded_file i with
  | Some f => try_except (try_body f i) (λ e, st (Error (error_message e)))
  | None => st (Info "Please upload a file to begin analysis.")
  end.

End Script.

(** ** The charts as values

    Section 4.3 of the specification describes the renderers as pure
    functions from a table and a selection to a chart. These are those
    functions, with the exception a renderer ends in when a column is
    missing or a library call raises; the renderers above are compared
    with them. The notions after them describe a chart from the table
    alone. *)

Section Charts.
Context {Cell : Type} (L : Library Cell).

(** The lines of the time series: label after label, the column is read
    and handed to [ax.plot]; the first call that raises ends the loop. *)
Fixpoint line_plots (df : DataFrame Cell) (selected_drugs : list string)
  : Result (list (Plot Cell)) :=
  match selected_drugs with
  | [] => Ok []
  | drug :: rest =>
      match getitem df drug with
      | Raise e => Raise e
      | Ok y =>
          match ax_plot L (index df) y with
          | Raise e => Raise e
          | Ok _ =>
              match line_plots df rest with
              | Raise e => Raise e
              | Ok ps =>
                  Ok (LinePlot {| line_x := index df; line_y := y;
                                  line_label := drug |} :: ps)
              end
          end
      end
  end.

Definition time_series_chart (df : DataFrame Cell) (selected_drugs : list string)
  : Result (Axes Cell) :=
  match line_plots df selected_drugs with
  | Raise e => Raise e
  | Ok ps =>
      Ok {| figsize := (12, 6)%Z;
            plots := ps;
            xlabel := "Date"; ylabel := "Sales Volume";
            title := "Monthly Drug Sales Volume Over Time";
            legend := Some ""; grid := true; xticks_rotation := 0;
            tight_layout := true |}
  end.

Definition boxplot_chart (df : DataFrame Cell) (selected_drugs : list string)
  : Result (Axes Cell) :=
  match getitems (columns df) selected_drugs with
  | Raise e => Raise e
  | Ok picked =>
      match sns_boxplot L (melt picked) with
      | Raise e => Raise e
      | Ok _ =>
          Ok {| figsize := (12, 6)%Z;
                plots := [BoxPlot "Drug Category" "Sales Volume" (melt picked)];
                xlabel := "Drug Category"; ylabel := "Sales Volume";
                title := "Distribution of Drug Sales Volume by Category";
                legend := None; grid := false; xticks_rotation := 45;
                tight_layout := true |}
      end
  end.

(** What [create_heatmap] computes before it opens its figure: the
    labels and the correlation matrix of the selected columns. *)
Definition heatmap_data (df : DataFrame Cell) (selected_drugs : list string)
  : Result (list string * list (list Cell)) :=
  match getitems (columns df) selected_drugs with
  | Raise e => Raise e
  | Ok picked =>
      match corr L picked with
      | Raise e => Raise e
      | Ok corr_matrix => Ok (picked.*1, corr_matrix)
      end
  end.

Definition heatmap_chart (df : DataFrame Cell) (selected_drugs : list string)
  : Result (Axes Cell) :=
  match heatmap_data df selected_drugs with
  | Raise e => Raise e
  | Ok (labels, corr_matrix) =>
      match sns_heatmap L labels corr_matrix with
      | Raise e => Raise e
      | Ok _ =>
          Ok {| figsize := (10, 8)%Z;
                plots := [Heatmap labels corr_matrix true "coolwarm" ".2f"];
                xlabel := ""; ylabel := "";
                title := "Correlation Between Drug Sales Categories";
                legend := None; grid := false; xticks_rotation := 0;
                tight_layout := true |}
      end
  end.

(** What [create_annual_sales] computes before it opens its figure: the
    years and [yearly_sales]. *)
Definition annual_data (df : DataFrame Cell) (selected_drugs : list string)
  : Result (list Z * list (string * list Cell)) :=
  match index df with
  | None => Raise "'RangeIndex' object has no attribute 'year'"
  | Some dates =>
      let years := year <$> dates in
      match getitems (setitem (columns df) "Year" (cell_of_year L <$> years))
              selected_drugs with
      | Raise e => Raise e
      | Ok picked =>
          Ok (group_keys years, prod_map id (yearly_sums L years) <$> picked)
      end
  end.

Definition annual_sales_chart (df : DataFrame Cell) (selected_drugs : list string)
  : Result (Axes Cell) :=
  match annual_data df selected_drugs with
  | Raise e => Raise e
  | Ok (years, yearly_sales) =>
      match getitems_every yearly_sales selected_drugs with
      | Raise e => Raise e
      | Ok shown =>
          match plot_bar L years shown with
          | Raise e => Raise e
          | Ok _ =>
              Ok {| figsize := (12, 6)%Z;
                    plots := [BarPlot years shown];
                    xlabel := "Year"; ylabel := "Total Sales Volume";
                    title := "Annual Drug Sales by Category";
                    legend := Some "Drug Category"; grid := false;
                    xticks_rotation := 0; tight_layout := true |}
          end
      end
  end.

Definition chart (c : ChartType) (df : DataFrame Cell) (selected_drugs : list string)
  : Result (Axes Cell) :=
  match c with
  | TimeSeries => time_series_chart df selected_drugs
  | BoxPlotChart => boxplot_chart df selected_drugs
  | CorrelationHeatmap => heatmap_chart df selected_drugs
  | AnnualSales => annual_sales_chart df selected_drugs
  end.

(** The chart a run of a renderer leaves behind the handle it returns. *)
Definition chart_of (out : World Cell * Result nat) : Result (Axes Cell) :=
  match out with
  | (w, Ok fig) =>
      match figures w !! fig with
      | Some a => Ok a
      | None => Raise "figure"
      end
  | (_, Raise e) => Raise e
  end.


(** The cells of the column labelled [n]; no cells when there is no
    such column. *)
Definition column (df : DataFrame Cell) (n : string) : list Cell :=
  default [] (assoc n (columns df)).

(** The line of column [n] over the index of the table. *)
Definition column_line (df : DataFrame Cell) (n : string) : Plot Cell :=
  LinePlot {| line_x := index df; line_y := column df n; line_label := n |}.



(** The table [create_annual_sales] groups: the table with the years of
    the index stored under "Year". *)
Definition with_years (df : DataFrame Cell) (dates : list Timestamp)
  : DataFrame Cell :=
  {| index := index df;
     columns := setitem (columns df) "Year" (cell_of_year L <$> (year <$> dates)) |}.

(** The totals of column [n] of that table: for each year of the index,
    once and ascending, the sum of the cells in the rows of that year. *)
Definition yearly_totals (df : DataFrame Cell) (dates : list Timestamp) (n : string)
  : list Cell :=
  (λ y, agg_sum L (rows_of_year y (year <$> dates) (column (with_years df dates) n)))
    <$> group_keys (year <$> dates).

(** The series of the annual chart for a selection. *)
Definition yearly_series (df : DataFrame Cell) (dates : list Timestamp)
    (selected_drugs : list string) : list (string * list Cell) :=
  (λ n, (n, yearly_totals df dates n)) <$> selected_drugs.

End Charts.

(** ** Relations between the world before and after a run *)

Section Effects.
Context {Cell : Type}.

(** A run [keeps] a relation when every outcome, normal or exceptional,
    leaves the world related to the one it started in. *)
Definition keeps {A} (R : relation (World Cell)) (m : M Cell A) : Prop :=
  ∀ w w' r, m w = (w', r) → R w w'.

(** The same, for the runs that end in an exception only. *)
Definition keeps_raising {A} (R : relation (World Cell)) (m : M Cell A) : Prop :=
  ∀ w w' e, m w = (w', Raise e) → R w w'.

(** Nothing was written to the page. *)
Definition same_page : relation (World Cell) :=
  λ w w', ui w' = ui w.

(** Only the page changed: no figure, no file, no call. *)
Definition page_only : relation (World Cell) :=
  λ w w', figures w' = figures w ∧ files w' = files w ∧ calls w' = calls w.

(** Neither a download link nor an error message. *)
Definition silent (e : Element Cell) : Prop :=
  match e with
  | Markdown _ | Error _ => False
  | _ => True
  end.

(** Neither a chart nor a download link. *)
Definition no_result (e : Element Cell) : Prop :=
  match e with
  | Pyplot _ | Markdown _ => False
  | _ => True
  end.

(** The page grew, and by elements that all satisfy [P]. *)
Definition grew_by (P : Element Cell → Prop) : relation (World Cell) :=
  λ w w', ∃ new, ui w' = ui w ++ new ∧ Forall P new.

(** The elements written since [w]. *)
Definition written (w w' : World Cell) : list (Element Cell) :=
  drop (length (ui w)) (ui w').

End Effects.

(** ** The loader's policies, as the specification words them *)

(** The date column: "datum" if there is one, otherwise "date" if there
    is one, otherwise the first column. *)
Definition resolve_date_column (names : list string) : option string :=
  if bool_decide ("datum" ∈ names) then Some "datum"
  else if bool_decide ("date" ∈ names) then Some "date"
  else names !! 0.

(** The warning goes with the third case only. *)
Definition falls_back (names : list string) : bool :=
  negb (bool_decide ("datum" ∈ names)) && negb (bool_decide ("date" ∈ names)).

(** Line 27: the extensions the uploader is set up with. *)
Definition accepted_types : list string := ["csv"; "xlsx"; "xls"].

Definition accepted (f : UploadedFile) : Prop :=
  ∃ t, t ∈ accepted_types ∧ PyStr.endswith (name f) ("." +:+ t) = true.

(** ** A small library over integer cells, to run the script on *)

Module Demo.

(** Dates are cells written yyyymmdd. *)
Definition parse_date (c : Z) : Result Timestamp :=
  if (0 <? c)%Z
  then Ok (mkTimestamp (c / 10000) ((c / 100) mod 100) (c mod 100))
  else Raise "Unknown datetime string format".

Fixpoint parse_dates (cells : list Z) : Result (list Timestamp) :=
  match cells with
  | [] => Ok []
  | c :: rest =>
      match parse_date c, parse_dates rest with
      | Ok t, Ok ts => Ok (t :: ts)
      | Raise e, _ => Raise e
      | _, Raise e => Raise e
      end
  end.

Definition png : bytes := [Byte.x89; Byte.x50; Byte.x4e; Byte.x47].

(** The stream a PDF holds for an image file: not the file, whose
    signature (four bytes in [png] above) is dropped, but its pixels,
    compressed anew (a zlib stream starts with the two bytes 78 9c). *)
Definition pixels (image : bytes) : bytes :=
  Byte.x78 :: Byte.x9c :: drop 4 image.

(** Parsing yields [table] whatever the bytes; every plotting call
    accepts its data, except a bar plot without any column or without
    any year; embedding an image works when [embed_ok] and raises
    otherwise. *)
Definition library (table : DataFrame Z) (embed_ok : bool) : Library Z :=
  {| read_csv := λ _, Ok table;
     read_excel := λ _, Ok table;
     to_datetime := parse_dates;
     cell_of_year := id;
     agg_sum := foldr Z.add 0%Z;
     corr := λ picked, Ok ((λ _, (λ _, 1%Z) <$> picked) <$> picked);
     ax_plot := λ _ _, Ok tt;
     sns_boxplot := λ _, Ok tt;
     sns_heatmap := λ _ _, Ok tt;
     plot_bar := λ years series,
       match years, series with
       | _ :: _, _ :: _ => Ok tt
       | _, _ => Raise "no numeric data to plot"
       end;
     savefig := λ _ _ _ _, Ok png;
     draw_image := λ image, if embed_ok then Ok (pixels image)
                            else Raise "cannot identify image file";
     canvas_save := λ _, Ok tt;
     add_paragraph := λ _, Ok tt;
     add_picture := λ image, if embed_ok then Ok image
                             else Raise "cannot identify image file";
     document_save := λ _, Ok tt |}.

Definition sales : DataFrame Z :=
  {| index := None;
     columns := [("date", [20200115; 20200220; 20210310]%Z);
                 ("DrugA", [1; 2; 3]%Z);
                 ("DrugB", [10; 20; 30]%Z)] |}.

(** A table whose first column is not called "datum" or "date". *)
Definition unnamed_dates : DataFrame Z :=
  {| index := None;
     columns := [("month", [20200115; 20200220]%Z); ("DrugA", [1; 2]%Z)] |}.

(** A table whose dates do not parse. *)
Definition bad_dates : DataFrame Z :=
  {| index := None; columns := [("date", [0%Z]); ("DrugA", [1%Z])] |}.

(** A table that has a column called "Year" of its own. *)
Definition with_year_column : DataFrame Z :=
  {| index := Some [mkTimestamp 2020 1 1];
     columns := [("Year", [5%Z])] |}.

Definition csv_upload : UploadedFile :=
  {| name := "sales.csv"; type := "text/csv"; data := [] |}.

(** Windows browsers with Excel installed report this MIME type for
    [.csv] files as well. *)
Definition csv_as_excel : UploadedFile :=
  {| name := "sales.csv"; type := "application/vnd.ms-excel"; data := [] |}.

Definition xls_upload : UploadedFile :=
  {| name := "sales.xls"; type := "application/vnd.ms-excel"; data := [] |}.

Definition start : World Z :=
  {| ui := []; figures := []; files := ∅; calls := [] |}.

(** A world in which pyplot holds one figure. *)
Definition with_chart : World Z :=
  {| ui := []; figures := [blank_axes (12, 6)%Z]; files := ∅; calls := [] |}.

Definition press (picked : option (list string)) (c : ChartType) : Interaction :=
  {| uploaded_file := Some csv_upload;
     picked_drugs := picked;
     chart_type := c;
     graph_title := "Drug Sales Analysis";
     graph_description := "Monthly volumes of two drugs.";
     button_pressed := true |}.

End Demo.

(** ** The download link (lines 176-178) *)

Module Base64.

(** The value of a byte, 0 to 255. *)
Definition byte_val (b : Byte.byte) : Z := Z.of_N (Byte.to_N b).

Definition byte_of_val (z : Z) : option Byte.byte := Byte.of_N (Z.to_N z).

Definition alphabet : list ascii :=
  list_ascii_of_string
    "ABCDEFGHIJKLMNOPQRSTUVWXYZabcdefghijklmnopqrstuvwxyz0123456789+/".

Definition pad : ascii := "="%char.

(** The character of a 6-bit value. *)
Definition b64char (n : Z) : ascii := nth (Z.to_nat n) alphabet pad.

(** [base64.b64encode(b).decode()]: three bytes give four characters; a
    last group of one or two bytes is filled up with [=]. *)
Fixpoint b64encode (b : bytes) : string :=
  match b with
  | [] => ""
  | [x] =>
      let x := byte_val x in
      String (b64char (x / 4)) (String (b64char (x mod 4 * 16))
        (String pad (String pad "")))
  | [x; y] =>
      let x := byte_val x in
      let y := byte_val y in
      String (b64char (x / 4)) (String (b64char (x mod 4 * 16 + y / 16))
        (String (b64char (y mod 16 * 4)) (String pad "")))
  | x :: y :: z :: rest =>
      let x := byte_val x in
      let y := byte_val y in
      let z := byte_val z in
      String (b64char (x / 4)) (String (b64char (x mod 4 * 16 + y / 16))
        (String (b64char (y mod 16 * 4 + z / 64)) (String (b64char (z mod 64))
          (b64encode rest))))
  end%Z.

(** The 6-bit value of a character of the alphabet. *)
Definition b64index (c : ascii) : option Z :=
  (λ hit, Z.of_nat hit.1) <$> list_find (λ x, x = c) alphabet.

(** Reading base64 text back, as the browser does with the link's data:
    four characters give three bytes, the padded last group one or two. *)
Fixpoint b64decode (s : string) : option bytes :=
  match s with
  | EmptyString => Some []
  | String c0 (String c1 (String c2 (String c3 rest))) =>
      i0 ← b64index c0;
      i1 ← b64index c1;
      b0 ← byte_of_val (i0 * 4 + i1 / 16);
      if decide (c2 = pad) then
        if decide (c3 = pad ∧ rest = EmptyString) then Some [b0] else None
      else
        i2 ← b64index c2;
        b1 ← byte_of_val (i1 mod 16 * 16 + i2 / 4);
        if decide (c3 = pad) then
          if decide (rest = EmptyString) then Some [b0; b1] else None
        else
          i3 ← b64index c3;
          b2 ← byte_of_val (i2 mod 4 * 64 + i3);
          tail ← b64decode rest;
          Some (b0 :: b1 :: b2 :: tail)
  | _ => None
  end%Z.

End Base64.

Definition dquote : string := String "034" "".

Definition href_prefix : string := "data:application/octet-stream;base64,".

(** The text [get_download_link] returns for a buffer whose
    [getvalue()] is [content]. *)
Definition download_link_html (content : bytes) (download_filename link_text : string)
  : string :=
  "<a href=" +:+ dquote +:+ href_prefix +:+ Base64.b64encode content +:+ dquote
  +:+ " download=" +:+ dquote +:+ download_filename +:+ dquote +:+ ">"
  +:+ link_text +:+ "</a>".

(** The characters up to the first double quote. *)
Fixpoint until_quote (s : string) : option string :=
  match s with
  | EmptyString => None
  | String c s' =>
      if decide (c = "034"%char) then Some EmptyString
      else String c <$> until_quote s'
  end.

(** The value of the [href] attribute of an anchor that starts with it,
    as an HTML parser reads it: what stands between the quotes. *)
Definition href_of (html : string) : option string :=
  match html with
  | String "<" (String "a" (String " " (String "h" (String "r" (String "e"
      (String "f" (String "=" (String "034" rest)))))))) => until_quote rest
  | _ => None
  end.

(** ** Further notions used by the properties of the script *)

(** The renderer that [render] enters for a chart type. *)
Definition call_of (c : ChartType) : Call :=
  match c with
  | TimeSeries => call_time_series_plot
  | BoxPlotChart => call_boxplot
  | CorrelationHeatmap => call_heatmap
  | AnnualSales => call_annual_sales
  end.

(** The figures a renderer that raises leaves open. The time series and
    the box plot open theirs first. The heat map and the annual chart
    open theirs once their data are computed: an exception from the
    computation leaves none, one from the plotting call leaves one. *)
Definition left_open {Cell : Type} (L : Library Cell) (c : ChartType)
    (df : DataFrame Cell) (selected_drugs : list string) : nat :=
  match c with
  | TimeSeries | BoxPlotChart => 1
  | CorrelationHeatmap =>
      match heatmap_data L df selected_drugs with Ok _ => 1 | Raise _ => 0 end
  | AnnualSales =>
      match annual_data L df selected_drugs with Ok _ => 1 | Raise _ => 0 end
  end.

(** The labels of the lines of a chart, in plotting order: the legend. *)
Definition line_labels {Cell : Type} (a : Axes Cell) : list string :=
  omap (λ p, match p with LinePlot l => Some (line_label l) | _ => None end)
       (plots a).

(** The x values of the lines of a chart. *)
Definition line_xs {Cell : Type} (a : Axes Cell) : list (option (list Timestamp)) :=
  omap (λ p, match p with LinePlot l => Some (line_x l) | _ => None end)
       (plots a).

(** Whitespace only. *)
Fixpoint all_space (s : string) : bool :=
  match s with
  | EmptyString => true
  | String c s' => PyStr.isspace c && all_space s'
  end.

Definition ends_with_space (l : string) : Prop := ∃ p, l = p +:+ " ".

(** ** Words and greedy lines, stated without the loop *)

Module Layout.
Import PyStr Wrap.

(** What may follow a word in a text: the end, or a whitespace. *)
Definition word_ends (rest : string) : Prop :=
  match rest with
  | EmptyString => True
  | String c _ => isspace c = true
  end.

(** [tokens s ws]: the text [s] read from left to right is whitespace,
    then the first word of [ws], then the text of the other words; a
    word is a run of characters other than whitespace that is not empty
    and cannot be extended. After the last word only whitespace is left. *)
Inductive tokens : string → list string → Prop :=
  | tokens_blank (s : string) :
      all_space s = true → tokens s []
  | tokens_word (gap w rest : string) (ws : list string) :
      all_space gap = true → good w → word_ends rest → tokens rest ws →
      tokens (gap +:+ (w +:+ rest)) (w :: ws).

(** The words [g] fit on one line, each followed by its separator. *)
Definition fits (g : list string) : Prop := len (spaced g) ≤ 80.

(** The lines that come after the line [prev]: each starts with a word
    that did not fit on the line before it, and holds either that word
    alone or words that fit together. *)
Fixpoint follows (prev : list string) (groups : list (list string)) : Prop :=
  match groups with
  | [] => True
  | g :: rest =>
      match g with
      | [] => False
      | w :: more => 80 < len (spaced prev) + len w + 1 ∧ (more = [] ∨ fits g)
      end
      ∧ follows g rest
  end.

(** [greedy_lines words groups]: [groups] are the lines of a greedy
    wrapping of [words], each line given by the words on it. The words
    are dealt out in order; the first line starts empty and takes words
    while they fit, so it fits, and it stays empty (and is not the last
    line) when the first word does not; later lines are as [follows]
    says. No word gives no line. *)
Definition greedy_lines (words : list string) (groups : list (list string)) : Prop :=
  concat groups = words
  ∧ match groups with
    | [] => True
    | first :: rest => fits first ∧ (first = [] → rest ≠ []) ∧ follows first rest
    end.

(** The loop of the wrapper with the current line kept as the words on
    it. *)
Fixpoint pack_groups (cur : list string) (words : list string)
  : list (list string) :=
  match words with
  | [] => match cur with [] => [] | _ :: _ => [cur] end
  | w :: ws =>
      if (len (spaced cur) + len w + 1 <=? 80)%nat
      then pack_groups (cur ++ [w]) ws
      else cur :: pack_groups [w] ws
  end.

End Layout.

(** ** More inputs to run the script on *)

Module Runs.

Definition dates : list Timestamp :=
  [mkTimestamp 2020 1 15; mkTimestamp 2020 2 20; mkTimestamp 2021 3 10].

(** The demo table as the loader returns it. *)
Definition indexed : DataFrame Z := set_index Demo.sales "date" dates.

(** The world after the demo table was loaded. *)
Definition loaded : World Z :=
  {| ui := [Subheader "Data Preview"; Dataframe (head Demo.sales)];
     figures := []; files := ∅; calls := [] |}.

(** A table without any column, as an empty sheet parses. *)
Definition no_columns : DataFrame Z := {| index := None; columns := [] |}.

(** A library whose parsers raise. *)
Definition unreadable : Library Z :=
  {| read_csv := λ _, Raise "No columns to parse from file";
     read_excel := λ _, Raise "Excel file format cannot be determined";
     to_datetime := Demo.parse_dates;
     cell_of_year := id;
     agg_sum := foldr Z.add 0%Z;
     corr := λ _, Ok [];
     ax_plot := λ _ _, Ok tt;
     sns_boxplot := λ _, Ok tt;
     sns_heatmap := λ _ _, Ok tt;
     plot_bar := λ _ _, Ok tt;
     savefig := λ _ _ _ _, Ok Demo.png;
     draw_image := λ image, Ok image;
     canvas_save := λ _, Ok tt;
     add_paragraph := λ _, Ok tt;
     add_picture := λ image, Ok image;
     document_save := λ _, Ok tt |}.

(** The page reloaded without the button pressed. *)
Definition idle : Interaction :=
  {| uploaded_file := Some Demo.csv_upload;
     picked_drugs := None;
     chart_type := TimeSeries;
     graph_title := "Drug Sales Analysis";
     graph_description := "Monthly volumes of two drugs.";
     button_pressed := false |}.

(** The box plot of the two drugs of the demo table. *)
Definition box_chart : Axes Z :=
  {| figsize := (12, 6)%Z;
     plots := [BoxPlot "Drug Category" "Sales Volume"
                 [("DrugA", 1%Z); ("DrugA", 2%Z); ("DrugA", 3%Z);
                  ("DrugB", 10%Z); ("DrugB", 20%Z); ("DrugB", 30%Z)]];
     xlabel := "Drug Category"; ylabel := "Sales Volume";
     title := "Distribution of Drug Sales Volume by Category";
     legend := None; grid := false; xticks_rotation := 45;
     tight_layout := true |}.


Definition word_doc (description : string) : list Block :=
  [Heading "Drug Sales Data Visualization Report" 0;
   Heading "Description:" 1;
   Paragraph description;
   Heading "Visualization:" 1;
   Picture Demo.png 6].

(** A table without rows, as a file with a header line only parses. *)
Definition header_only : DataFrame Z :=
  {| index := None; columns := [("date", []); ("DrugA", [])] |}.

(** A word of 45 characters: two of them do not fit on one line. *)
Definition long_word : string :=
  "012345678901234567890123456789012345678901234".

End Runs.

Section PyStrFacts.
Import PyStr Wrap.

Lemma app_cons (c : ascii) (a b : string) :
  String c a +:+ b = String c (a +:+ b).
Proof. reflexivity. Qed.

Lemma app_empty_l (a : string) : "" +:+ a = a.
Proof. reflexivity. Qed.

Lemma len_app (a b : string) : len (a +:+ b) = len a + len b.
Proof.
  unfold len. induction a as [|c a IH]; [done|].
  rewrite app_cons. simpl. by f_equal.
Qed.

Lemma app_empty_r (a : string) : a +:+ "" = a.
Proof. induction a as [|c a IH]; [done|]. rewrite app_cons. by f_equal. Qed.

Lemma app_assoc_str (a b c : string) : (a +:+ b) +:+ c = a +:+ (b +:+ c).
Proof.
  induction a as [|x a IH]; [done|]. rewrite !app_cons. by f_equal.
Qed.

Lemma truthy_app_r (a b : string) : truthy b = true → truthy (a +:+ b) = true.
Proof. destruct a; [done|]. by rewrite app_cons. Qed.

Lemma truthy_len (a : string) : truthy a = true ↔ 0 < len a.
Proof. destruct a; simpl; split; intros; try done; lia. Qed.

Lemma spaceless_app (a b : string) :
  spaceless (a +:+ b) = spaceless a && spaceless b.
Proof.
  induction a as [|c a IH]; [done|].
  rewrite app_cons. simpl. by rewrite IH, andb_assoc.
Qed.

Lemma join_app (l1 l2 : list string) : join (l1 ++ l2) = join l1 +:+ join l2.
Proof.
  induction l1 as [|x l1 IH]; simpl; [done|].
  by rewrite IH, app_assoc_str.
Qed.

Lemma split_go_good (s cur : string) :
  spaceless cur = true → Forall good (split_go cur s).
Proof.
  revert cur. induction s as [|c s IH]; intros cur Hcur; simpl.
  - destruct (truthy cur) eqn:E; constructor; [by split | constructor].
  - destruct (isspace c) eqn:Ec.
    + destruct (truthy cur) eqn:E.
      * constructor; [by split | by apply IH].
      * by apply IH.
    + apply IH. rewrite spaceless_app, Hcur. simpl. by rewrite Ec.
Qed.

Lemma split_good (s : string) : Forall good (split s).
Proof. by apply split_go_good. Qed.

(** Scanning a spaceless chunk only extends the current word. *)
Lemma split_go_chunk (w rest cur : string) :
  spaceless w = true → split_go cur (w +:+ rest) = split_go (cur +:+ w) rest.
Proof.
  revert cur. induction w as [|c w IH]; intros cur Hw.
  - by rewrite app_empty_r.
  - simpl in Hw. apply andb_prop in Hw as [Hc Hw].
    apply negb_true_iff in Hc. rewrite app_cons. simpl.
    rewrite Hc, IH by done.
    by rewrite app_assoc_str.
Qed.

Lemma split_word_sep (w rest : string) :
  good w → split (w +:+ " " +:+ rest) = w :: split rest.
Proof.
  intros [Ht Hs]. unfold split. rewrite split_go_chunk by done.
  rewrite app_empty_l, app_cons. simpl. by rewrite Ht.
Qed.

Lemma spaced_app (l1 l2 : list string) :
  spaced (l1 ++ l2) = spaced l1 +:+ spaced l2.
Proof. unfold spaced. by rewrite map_app, join_app. Qed.

Lemma split_spaced (ws : list string) : Forall good ws → split (spaced ws) = ws.
Proof.
  induction 1 as [|w ws Hw _ IH]; [done|].
  unfold spaced in *. simpl. rewrite app_assoc_str.
  rewrite split_word_sep by done. by f_equal.
Qed.

Lemma split_go_nil (s cur : string) :
  split_go cur s = [] ↔ truthy cur = false ∧ all_space s = true.
Proof.
  revert cur. induction s as [|c s IH]; intros cur; simpl.
  - destruct (truthy cur); split; try done. by intros [? _].
  - destruct (isspace c) eqn:Ec; simpl.
    + destruct (truthy cur) eqn:Et.
      * split; [done | by intros [? _]].
      * rewrite IH. simpl. tauto.
    + rewrite IH. split; [|by intros [_ ?]].
      intros [Ht _]. exfalso.
      assert (truthy (cur +:+ String c "") = true) by by apply truthy_app_r.
      congruence.
Qed.

End PyStrFacts.

(** ** Facts about the wrapper *)

Section WrapFacts.
Import PyStr Wrap.

(** The loop with its accumulators computes the recursive packing. *)
Lemma fold_wrap_step (ws lines : list string) (line : string) :
  (let '(L, l) := fold_left wrap_step ws (lines, line) in
   if truthy l then L ++ [l] else L)
  = lines ++ greedy_pack 80 line ws.
Proof.
  revert lines line. induction ws as [|w ws IH]; intros lines line; simpl.
  - destruct (truthy line); [done | by rewrite app_nil_r].
  - rewrite len_app.
    destruct (len line + len w + 1 <=? 80)%nat; rewrite IH; [done|].
    by rewrite <- app_assoc.
Qed.

Lemma join_greedy_pack (limit : nat) (ws : list string) (line : string) :
  join (greedy_pack limit line ws) = line +:+ spaced ws.
Proof.
  revert line. induction ws as [|w ws IH]; intros line; simpl.
  - unfold spaced. simpl. rewrite app_empty_r.
    destruct line; simpl; [done | by rewrite app_empty_r].
  - change (spaced (w :: ws)) with ((w +:+ " ") +:+ spaced ws).
    destruct (len line + len w + 1 <=? limit)%nat.
    + by rewrite IH, !app_assoc_str.
    + simpl. by rewrite IH.
Qed.

Lemma greedy_pack_line_ok (W ws : list string) (line : string) :
  ws ⊆ W → line_ok W line → Forall (line_ok W) (greedy_pack 80 line ws).
Proof.
  revert line. induction ws as [|w ws IH]; intros line Hsub Hline; simpl.
  - destruct (truthy line); [by constructor | constructor].
  - assert (Hw : w ∈ W) by (apply Hsub; left).
    assert (Hws : ws ⊆ W) by (intros x Hx; apply Hsub; by right).
    destruct (len line + len w + 1 <=? 80)%nat eqn:E.
    + apply Nat.leb_le in E. apply IH; [done|].
      left. rewrite !len_app. simpl. lia.
    + constructor; [done|]. apply IH; [done|].
      destruct (decide (len w ≤ 79)) as [Hle|Hgt].
      * left. rewrite len_app. simpl. lia.
      * right. exists w. split_and!; [done | lia | done].
Qed.

(** A line that is already over the limit is closed as it stands. *)
Lemma greedy_pack_full (ws : list string) (line : string) :
  80 < len line → line ∈ greedy_pack 80 line ws.
Proof.
  intros Hlen. destruct ws as [|w ws]; simpl.
  - assert (truthy line = true) as -> by (apply truthy_len; lia). left.
  - destruct (len line + len w + 1 <=? 80)%nat eqn:E; [|left].
    apply Nat.leb_le in E. lia.
Qed.

Lemma greedy_pack_long_word (ws : list string) (line w : string) :
  w ∈ ws → 79 < len w → (w +:+ " ") ∈ greedy_pack 80 line ws.
Proof.
  revert line. induction ws as [|x ws IH]; intros line Hin Hlen.
  - by apply elem_of_nil in Hin.
  - simpl. apply elem_of_cons in Hin as [<-|Hin].
    + destruct (len line + len w + 1 <=? 80)%nat eqn:E.
      { apply Nat.leb_le in E. lia. }
      right. apply greedy_pack_full. rewrite len_app. simpl. lia.
    + destruct (len line + len x + 1 <=? 80)%nat; [|right]; by apply IH.
Qed.

Lemma wrap_words_greedy (ws : list string) :
  wrap_words ws = greedy_pack 80 "" ws.
Proof.
  unfold wrap_words. pose proof (fold_wrap_step ws [] "") as H.
  by destruct (fold_left wrap_step ws ([], "")) as [lines line].
Qed.

(** C10. The wrapper keeps the word sequence: the lines put together
    split into the words of the description. Every line is at most 80
    characters long, its trailing space included, unless it consists of
    one word of more than 79 characters; such a word is never split, it
    is a line by itself, longer than 80. *)
Theorem wrapper_keeps_words_and_bounds_lines (description : string) :
  split (join (wrap_description description)) = split description
  ∧ Forall (line_ok (split description)) (wrap_description description)
  ∧ Forall (λ w, 79 < len w →
                 (w +:+ " ") ∈ wrap_description description
                 ∧ 80 < len (w +:+ " "))
      (split description).
Proof.
  unfold wrap_description. rewrite wrap_words_greedy. split_and!.
  - rewrite join_greedy_pack, app_empty_l.
    apply split_spaced, split_good.
  - apply greedy_pack_line_ok; [done|]. left. simpl. lia.
  - apply Forall_forall. intros w Hw Hlen. split.
    + by apply greedy_pack_long_word.
    + rewrite len_app. simpl. lia.
Qed.

(** The wrapper at work: a short text, runs of blanks and a line break,
    and a text whose first word does not fit (the empty current line is
    closed first, which gives a blank line). *)
Example wrap_short :
  wrap_description "Monthly volumes of two drugs."
  = ["Monthly volumes of two drugs. "].
Proof. reflexivity. Qed.

Example split_collapses_whitespace :
  split (String "009" "  a" +:+ String "010" " b  ") = ["a"; "b"].
Proof. reflexivity. Qed.

Example wrap_long_first_word :
  wrap_words ["01234567890123456789012345678901234567890123456789012345678901234567890123456789"; "a"]
  = [""; "01234567890123456789012345678901234567890123456789012345678901234567890123456789 "; "a "].
Proof. reflexivity. Qed.

Example wrap_two_lines :
  wrap_words ["0123456789012345678901234567890123456789";
              "012345678901234567890123456789012345678"; "a"]
  = ["0123456789012345678901234567890123456789 ";
     "012345678901234567890123456789012345678 a "].
Proof. reflexivity. Qed.

End WrapFacts.

(** ** Words and lines of the wrapper, against their description *)

Section LayoutFacts.
Import PyStr Wrap Layout.

Lemma truthy_app_l (a b : string) : truthy a = true → truthy (a +:+ b) = true.
Proof. by destruct a. Qed.

Lemma split_go_skip (gap s : string) :
  all_space gap = true → split_go "" (gap +:+ s) = split_go "" s.
Proof.
  induction gap as [|c gap IH]; [done|]. simpl.
  intros [Hc Hgap]%andb_prop. rewrite ?app_cons. simpl. rewrite Hc. by apply IH.
Qed.

Lemma split_go_word (w rest : string) :
  good w → word_ends rest → split_go "" (w +:+ rest) = w :: split_go "" rest.
Proof.
  intros [Ht Hs] Hrest. rewrite split_go_chunk by done. rewrite app_empty_l.
  destruct rest as [|c rest]; simpl in *.
  - by rewrite Ht.
  - by rewrite Hrest, Ht.
Qed.

(** A text has at most one reading as words between whitespace: the
    one [split] computes. *)
Lemma tokens_split (s : string) (ws : list string) :
  tokens s ws → split s = ws.
Proof.
  unfold split. induction 1 as [s Hs|gap w rest ws Hgap Hw Hrest _ IH].
  - apply split_go_nil. by split.
  - rewrite split_go_skip, split_go_word by done. by f_equal.
Qed.

Lemma tokens_cons (c : ascii) (s : string) (ws : list string) :
  tokens s ws → ∃ ws', tokens (String c s) ws'.
Proof.
  intros Hs. destruct (isspace c) eqn:Hc.
  - exists ws. destruct Hs as [s Hs|gap w rest ws Hgap Hw Hrest Hws].
    + apply tokens_blank. simpl. by rewrite Hc.
    + rewrite <- app_cons. apply tokens_word; try done. simpl. by rewrite Hc.
  - assert (Hgood : good (String c "")).
    { split; [done|]. simpl. by rewrite Hc. }
    destruct Hs as [s Hs|gap w rest ws Hgap Hw Hrest Hws].
    + exists [String c ""].
      change (String c s) with ("" +:+ (String c "" +:+ s)).
      apply tokens_word; [done | done | | by apply tokens_blank].
      destruct s as [|c' s]; [done|]. simpl in *.
      by apply andb_prop in Hs as [? _].
    + destruct gap as [|g gap].
      * exists (String c w :: ws).
        change (String c ("" +:+ (w +:+ rest)))
          with ("" +:+ (String c w +:+ rest)).
        apply tokens_word; try done.
        destruct Hw as [_ Hw]. split; [done|]. simpl. by rewrite Hc, Hw.
      * exists (String c "" :: w :: ws).
        change (String c (String g gap +:+ (w +:+ rest)))
          with ("" +:+ (String c "" +:+ (String g gap +:+ (w +:+ rest)))).
        apply tokens_word; [done | done | | by apply tokens_word].
        rewrite app_cons. simpl in *. by apply andb_prop in Hgap as [? _].
Qed.

Lemma tokens_exist (s : string) : ∃ ws, tokens s ws.
Proof.
  induction s as [|c s [ws IH]].
  - exists []. by apply tokens_blank.
  - by eapply tokens_cons.
Qed.

Lemma len_spaced_cons (w : string) (g : list string) :
  len (spaced (w :: g)) = len w + 1 + len (spaced g).
Proof.
  change (spaced (w :: g)) with ((w +:+ " ") +:+ spaced g).
  by rewrite !len_app.
Qed.

Lemma len_spaced_app (g h : list string) :
  len (spaced (g ++ h)) = len (spaced g) + len (spaced h).
Proof. by rewrite spaced_app, len_app. Qed.

Lemma spaced_snoc (g : list string) (w : string) :
  spaced (g ++ [w]) = spaced g +:+ (w +:+ " ").
Proof.
  rewrite spaced_app. f_equal.
  change (spaced [w]) with ((w +:+ " ") +:+ ""). apply app_empty_r.
Qed.

Lemma truthy_spaced (g : list string) :
  truthy (spaced g) = match g with [] => false | _ :: _ => true end.
Proof.
  destruct g as [|w g]; [done|].
  change (spaced (w :: g)) with ((w +:+ " ") +:+ spaced g).
  by apply truthy_app_l, truthy_app_r.
Qed.

(** The wrapper's lines are the groups of the loop that keeps the words
    of the current line, each group written out. *)
Lemma greedy_pack_groups (cur ws : list string) :
  greedy_pack 80 (spaced cur) ws = spaced <$> pack_groups cur ws.
Proof.
  revert cur. induction ws as [|w ws IH]; intros cur; simpl.
  - rewrite truthy_spaced. by destruct cur.
  - destruct (len (spaced cur) + len w + 1 <=? 80)%nat.
    + by rewrite <- IH, spaced_snoc.
    + rewrite fmap_cons. f_equal. rewrite <- IH. f_equal.
      change (spaced [w]) with ((w +:+ " ") +:+ ""). by rewrite app_empty_r.
Qed.

Lemma concat_pack_groups (cur ws : list string) :
  concat (pack_groups cur ws) = cur ++ ws.
Proof.
  revert cur. induction ws as [|w ws IH]; intros cur; simpl.
  - destruct cur; simpl; by rewrite ?app_nil_r.
  - destruct (len (spaced cur) + len w + 1 <=? 80)%nat.
    + by rewrite IH, <- app_assoc.
    + simpl. by rewrite IH.
Qed.

Lemma pack_groups_follows (ws prev more : list string) (w0 : string) :
  80 < len (spaced prev) + len w0 + 1 →
  more = [] ∨ fits (w0 :: more) →
  follows prev (pack_groups (w0 :: more) ws).
Proof.
  revert prev w0 more. induction ws as [|w ws IH]; intros prev w0 more Hprev Hcur.
  - simpl. done.
  - cbn [pack_groups].
    destruct (len (spaced (w0 :: more)) + len w + 1 <=? 80)%nat eqn:E.
    + apply Nat.leb_le in E. change ((w0 :: more) ++ [w]) with (w0 :: (more ++ [w])).
      apply IH; [done|]. right. unfold fits.
      change (w0 :: (more ++ [w])) with ((w0 :: more) ++ [w]).
      rewrite len_spaced_app, (len_spaced_cons w []). simpl. lia.
    + apply Nat.leb_gt in E. simpl. split; [done|].
      apply IH; [lia | by left].
Qed.

Lemma pack_groups_first (ws more : list string) (w0 : string) :
  fits (w0 :: more) →
  ∃ g rest, pack_groups (w0 :: more) ws = g :: rest
            ∧ fits g ∧ g ≠ [] ∧ follows g rest.
Proof.
  revert w0 more. induction ws as [|w ws IH]; intros w0 more Hfits.
  - by exists (w0 :: more), [].
  - cbn [pack_groups].
    destruct (len (spaced (w0 :: more)) + len w + 1 <=? 80)%nat eqn:E.
    + apply Nat.leb_le in E. change ((w0 :: more) ++ [w]) with (w0 :: (more ++ [w])).
      apply IH. unfold fits.
      change (w0 :: (more ++ [w])) with ((w0 :: more) ++ [w]).
      rewrite len_spaced_app, (len_spaced_cons w []). simpl. lia.
    + apply Nat.leb_gt in E. exists (w0 :: more), (pack_groups [w] ws).
      split_and!; [done | done | done |].
      apply pack_groups_follows; [lia | by left].
Qed.

Lemma pack_groups_greedy (ws : list string) : greedy_lines ws (pack_groups [] ws).
Proof.
  split; [apply concat_pack_groups|].
  destruct ws as [|w ws]; [done|]. cbn [pack_groups].
  change (len (spaced [])) with 0.
  destruct (0 + len w + 1 <=? 80)%nat eqn:E.
  - apply Nat.leb_le in E. change ([] ++ [w]) with [w].
    destruct (pack_groups_first ws [] w) as (g & rest & -> & Hg & Hne & Hrest).
    { unfold fits. rewrite len_spaced_cons. simpl. lia. }
    done.
  - apply Nat.leb_gt in E. split_and!.
    + unfold fits. simpl. lia.
    + intros _. pose proof (concat_pack_groups [w] ws) as Hcat.
      intros Hnil. by rewrite Hnil in Hcat.
    + apply pack_groups_follows; [simpl; lia | by left].
Qed.

(** A line cannot take a word more than the greedy one does: the next
    line starts with a word that did not fit. *)
Lemma strict_prefix_absurd (g t rest : list string) (x : string)
    (G : list (list string)) :
  concat G = (x :: t) ++ rest → follows g G → fits (g ++ x :: t) → False.
Proof.
  destruct G as [|[|w more] G]; simpl; [done | by intros _ [[] _] |].
  intros [= -> _] [[Hlong _] _]. unfold fits.
  rewrite len_spaced_app, len_spaced_cons. lia.
Qed.

Lemma follows_unique (G G' : list (list string)) (prev : list string) :
  follows prev G → follows prev G' → concat G = concat G' → G = G'.
Proof.
  revert G' prev. induction G as [|g G IH]; intros G' prev HG HG' Hcat.
  - destruct G' as [|[|w more] G']; [done | by destruct HG' as [[] _] | done].
  - destruct G' as [|g' G'].
    { destruct g as [|w more]; [by destruct HG as [[] _] | done]. }
    simpl in HG, HG', Hcat.
    destruct g as [|w more]; [by destruct HG as [[] _]|].
    destruct g' as [|w' more']; [by destruct HG' as [[] _]|].
    destruct HG as [[Hw Hg] HG], HG' as [[Hw' Hg'] HG'].
    assert (Heq : w :: more = w' :: more').
    { apply app_eq_inv in Hcat as [(t & Ht & Hrest)|(t & Ht & Hrest)].
      - destruct t as [|x t]; [by rewrite app_nil_r in Ht|]. exfalso.
        eapply (strict_prefix_absurd (w' :: more') t _ x G'); [done | done |].
        rewrite <- Ht. destruct Hg as [->|Hg]; [|done].
        by destruct more'.
      - destruct t as [|x t]; [by rewrite app_nil_r in Ht|]. exfalso.
        eapply (strict_prefix_absurd (w :: more) t _ x G); [done | done |].
        rewrite <- Ht. destruct Hg' as [->|Hg']; [|done].
        by destruct more. }
    rewrite <- Heq in *. f_equal. apply (IH G' (w :: more)); [done | done |].
    by apply app_inv_head in Hcat.
Qed.

(** A sequence of words has one greedy wrapping. *)
Lemma greedy_lines_unique (ws : list string) (G G' : list (list string)) :
  greedy_lines ws G → greedy_lines ws G' → G = G'.
Proof.
  assert (Hnone : ∀ g R, concat (g :: R) = [] → (g = [] → R ≠ []) →
                         follows g R → False).
  { intros g R Hcat Hne HR. simpl in Hcat.
    apply app_eq_nil in Hcat as [-> Hcat].
    destruct R as [|[|w more] R]; [by apply Hne | by destruct HR as [[] _] | done]. }
  intros [Hcat HG] [Hcat' HG']. rewrite <- Hcat' in Hcat. clear Hcat'.
  destruct G as [|g R], G' as [|g' R']; [done | | |].
  - exfalso. destruct HG' as (_ & Hne & HR). by eapply Hnone.
  - exfalso. destruct HG as (_ & Hne & HR). by eapply Hnone.
  - destruct HG as (Hg & _ & HR), HG' as (Hg' & _ & HR'). simpl in Hcat.
    assert (Heq : g = g').
    { apply app_eq_inv in Hcat as [(t & Ht & Hrest)|(t & Ht & Hrest)].
      - destruct t as [|x t]; [by rewrite app_nil_r in Ht|]. exfalso.
        eapply (strict_prefix_absurd g' t _ x R'); [done | done |].
        by rewrite <- Ht.
      - destruct t as [|x t]; [by rewrite app_nil_r in Ht|]. exfalso.
        eapply (strict_prefix_absurd g t _ x R); [done | done |].
        by rewrite <- Ht. }
    subst g'. f_equal. apply (follows_unique R R' g); [done | done |].
    by apply app_inv_head in Hcat.
Qed.

End LayoutFacts.

(** ** Facts about frames *)

Section FrameFacts.
Context {Cell : Type}.
Implicit Types (cols picked : list (string * list Cell)) (names : list string).

Lemma assoc_setitem cols (k c : string) (v : list Cell) :
  assoc c (setitem cols k v) = if decide (k = c) then Some v else assoc c cols.
Proof.
  induction cols as [|[k' v'] cols IH]; simpl.
  - done.
  - destruct (decide (k' = k)) as [->|Hne]; simpl.
    + by destruct (decide (k = c)).
    + destruct (decide (k' = c)) as [->|Hne'].
      * by rewrite decide_False by done.
      * done.
Qed.

Lemma assoc_Some_elem_of {V : Type} (c : string) (l : list (string * V)) (v : V) :
  assoc c l = Some v → c ∈ l.*1.
Proof.
  induction l as [|[k x] l IH]; simpl; [done|].
  destruct (decide (k = c)) as [->|]; intros; [left | right; auto].
Qed.

Lemma elem_of_assoc_is_Some {V : Type} (c : string) (l : list (string * V)) :
  c ∈ l.*1 → is_Some (assoc c l).
Proof.
  induction l as [|[k x] l IH]; simpl.
  - by intros ?%elem_of_nil.
  - intros [->|Hin]%elem_of_cons.
    + rewrite decide_True by done. by eexists.
    + destruct (decide (k = c)); [by eexists | auto].
Qed.

(** [df[names]] succeeds exactly when every label is a column, and then
    lists, label by label, the column found. *)
Lemma getitems_Ok cols names picked :
  getitems cols names = Ok picked ↔
  Forall2 (λ n kv, kv.1 = n ∧ assoc n cols = Some kv.2) names picked.
Proof.
  revert picked. induction names as [|n ns IH]; intros picked; simpl.
  - split; [intros [= <-]; constructor | by intros ->%Forall2_nil_inv_l].
  - destruct (assoc n cols) as [cells|] eqn:E.
    + destruct (getitems cols ns) as [rest|e] eqn:Er.
      * split.
        -- intros [= <-]. constructor; [done | by apply IH].
        -- intros (kv & p' & [Hk Hv] & Hrest & ->)%Forall2_cons_inv_l.
           apply IH in Hrest as [= ->]. destruct kv as [k v]; simpl in *.
           by simplify_eq.
      * split; [done|].
        intros (kv & p' & _ & Hrest & ->)%Forall2_cons_inv_l.
        by apply IH in Hrest.
    + split; [done|].
      intros (kv & p' & [_ Hv] & _ & ->)%Forall2_cons_inv_l. congruence.
Qed.




(** Grouping: the cells filed under a year are the cells of the rows of
    that year, in row order. *)
Lemma fold_group_step (rows : list (Z * Cell)) (m : gmap Z (list Cell)) (y : Z) :
  default [] (fold_left group_step rows m !! y)
  = default [] (m !! y) ++ (filter (λ row, row.1 = y) rows).*2.
Proof.
  revert m. induction rows as [|[k v] rows IH]; intros m; simpl.
  - by rewrite app_nil_r.
  - rewrite IH. unfold group_step. simpl.
    destruct (decide (k = y)) as [->|Hne].
    + rewrite lookup_insert_eq, filter_cons_True by done. simpl.
      by rewrite <- app_assoc.
    + by rewrite lookup_insert_ne, filter_cons_False by done.
Qed.

Lemma group_cells_rows (keys : list Z) (cells : list Cell) (y : Z) :
  default [] (group_cells keys cells !! y) = rows_of_year y keys cells.
Proof. unfold group_cells. by rewrite fold_group_step, lookup_empty. Qed.

Lemma elem_of_group_keys (keys : list Z) (y : Z) : y ∈ group_keys keys ↔ y ∈ keys.
Proof.
  unfold group_keys. rewrite merge_sort_Permutation.
  apply elem_of_remove_dups.
Qed.

(** Reading the value aligned with a key. *)
Lemma aligned_fmap {V : Type} (f : Z → V) (ks : list Z) (y : Z) :
  y ∈ ks → aligned y ks (f <$> ks) = Some (f y).
Proof.
  induction ks as [|k ks IH]; [by intros ?%elem_of_nil|].
  intros Hin. simpl. destruct (decide (k = y)) as [->|Hne]; [done|].
  apply elem_of_cons in Hin as [->|Hin]; [done | auto].
Qed.

(** A selection that succeeds returns, label after label, the first
    column carrying the label; every label is one of the frame. *)
Lemma getitems_columns cols names picked :
  getitems cols names = Ok picked →
  picked = (λ n, (n, default [] (assoc n cols))) <$> names ∧ names ⊆ cols.*1.
Proof.
  intros H%getitems_Ok. induction H as [|n [k v] ns p [Hk Hv] _ [IH1 IH2]];
    simpl in *.
  - split; [done|]. by intros ? ?%elem_of_nil.
  - subst k. rewrite Hv. simpl. split; [by f_equal|].
    intros x [->|Hx]%elem_of_cons; [|by apply IH2].
    by apply (assoc_Some_elem_of _ _ v).
Qed.

Lemma assoc_app {V : Type} (c : string) (l1 l2 : list (string * V)) :
  assoc c (l1 ++ l2)
  = match assoc c l1 with Some v => Some v | None => assoc c l2 end.
Proof.
  induction l1 as [|[k v] l1 IH]; simpl; [done|].
  by destruct (decide (k = c)).
Qed.

Lemma assoc_filter {V : Type} (c n : string) (l : list (string * V)) :
  assoc c (filter (λ kv, kv.1 = n) l)
  = if decide (n = c) then assoc c l else None.
Proof.
  induction l as [|[k v] l IH]; simpl; [by destruct (decide (n = c))|].
  destruct (decide (k = n)) as [->|Hkn].
  - rewrite filter_cons_True by done. simpl.
    destruct (decide (n = c)) as [->|Hnc]; [done | by rewrite IH].
  - rewrite filter_cons_False by done. rewrite IH.
    destruct (decide (n = c)) as [->|Hnc]; [|done].
    by rewrite decide_False.
Qed.


Lemma getitems_every_inv cols names shown :
  getitems_every cols names = Ok shown →
  names ⊆ cols.*1
  ∧ shown = flat_map (λ n, filter (λ kv, kv.1 = n) cols) names.
Proof.
  revert shown. induction names as [|n ns IH]; intros shown; simpl.
  - intros [= <-]. split; [|done]. by intros ? ?%elem_of_nil.
  - destruct (filter (λ kv, kv.1 = n) cols) as [|hit hits] eqn:E; [done|].
    destruct (getitems_every cols ns) as [rest|]; [|done].
    intros [= <-]. destruct (IH rest eq_refl) as [Hsub ->]. split; [|done].
    intros x [->|Hx]%elem_of_cons; [|by apply Hsub].
    assert (Hin : hit ∈ filter (λ kv, kv.1 = n) cols) by (rewrite E; left).
    apply list_elem_of_filter in Hin as [<- Hin].
    apply list_elem_of_fmap. by exists hit.
Qed.

Lemma elem_of_getitems_every cols names shown (kv : string * list Cell) :
  getitems_every cols names = Ok shown →
  kv ∈ shown ↔ kv ∈ cols ∧ kv.1 ∈ names.
Proof.
  intros [_ ->]%getitems_every_inv.
  rewrite list_elem_of_In, in_flat_map. split.
  - intros (n & Hn%list_elem_of_In & [Hk Hin]%list_elem_of_In%list_elem_of_filter).
    by subst n.
  - intros [Hin Hk]. exists kv.1. split; [by apply list_elem_of_In|].
    apply list_elem_of_In. by apply list_elem_of_filter.
Qed.

Lemma assoc_getitems_every cols names shown (c : string) :
  getitems_every cols names = Ok shown → c ∈ names →
  assoc c shown = assoc c cols.
Proof.
  intros [Hsub ->]%getitems_every_inv. revert Hsub.
  induction names as [|n ns IH]; intros Hsub Hc; [by apply elem_of_nil in Hc|].
  simpl. rewrite assoc_app, assoc_filter.
  assert (Hns : ns ⊆ cols.*1) by (intros x Hx; apply Hsub; by right).
  destruct (decide (n = c)) as [->|Hne].
  - destruct (elem_of_assoc_is_Some c cols) as [v ->]; [|done].
    apply Hsub. left.
  - apply elem_of_cons in Hc as [->|Hc]; [done | by apply IH].
Qed.




(** The sums per year, year after year. *)
Lemma yearly_sums_rows (L : Library Cell) (years : list Z) (cells : list Cell) :
  yearly_sums L years cells
  = (λ y, agg_sum L (rows_of_year y years cells)) <$> group_keys years.
Proof.
  unfold yearly_sums. apply list_fmap_ext. intros _ y _.
  by rewrite group_cells_rows.
Qed.

End FrameFacts.

(** ** Facts about the renderers *)

Section RenderFacts.
Context {Cell : Type} (L : Library Cell).
Implicit Types (w : World Cell) (df : DataFrame Cell).

Lemma alter_last {A : Type} (f : A → A) (l : list A) (x : A) :
  alter f (length l) (l ++ [x]) = l ++ [f x].
Proof.
  replace (length l) with (length l + 0) by lia.
  by rewrite alter_app_r.
Qed.

Lemma lookup_last {A : Type} (l : list A) (x : A) :
  (l ++ [x]) !! length l = Some x.
Proof. by rewrite lookup_app_r, Nat.sub_diag. Qed.

(** The newest figure is pyplot's current one. *)
Lemma alter_current {A : Type} (f : A → A) (l : list A) (x : A) :
  alter f (pred (length (l ++ [x]))) (l ++ [x]) = l ++ [f x].
Proof.
  rewrite length_app. simpl.
  replace (pred (length l + 1)) with (length l) by lia. apply alter_last.
Qed.

(** Changing the newest figure. *)
Lemma on_axes_newest (f : Axes Cell → Axes Cell) (l : list (Axes Cell))
    (a : Axes Cell) (u : list (Element Cell)) (fs : gmap nat bytes) (cs : list Call) :
  on_axes (length l) f (mkWorld u (l ++ [a]) fs cs)
  = (mkWorld u (l ++ [f a]) fs cs, Ok tt).
Proof. unfold on_axes, with_figures. simpl. by rewrite alter_last. Qed.

(** The plotting loop: every selected column that is found and drawn
    adds its line; the first call that raises ends the loop. *)
Lemma plot_lines_run df (sel : list string) (l : list (Axes Cell)) (a : Axes Cell)
    (u : list (Element Cell)) (fs : gmap nat bytes) (cs : list Call) :
  match line_plots L df sel with
  | Ok ps =>
      plot_lines L (length l) df sel (mkWorld u (l ++ [a]) fs cs)
      = (mkWorld u (l ++ [foldl (λ a p, add_plot p a) a ps]) fs cs, Ok tt)
  | Raise e =>
      ∃ a', plot_lines L (length l) df sel (mkWorld u (l ++ [a]) fs cs)
            = (mkWorld u (l ++ [a']) fs cs, Raise e)
  end.
Proof.
  revert a. induction sel as [|n ns IH]; intros a; simpl; [done|].
  unfold bind, lift.
  destruct (getitem df n) as [cells|e]; [|by eexists].
  destruct (ax_plot L (index df) cells) as [[]|e]; [|by eexists].
  rewrite on_axes_newest.
  specialize (IH (add_line (mkLine (index df) cells n) a)).
  destruct (line_plots L df ns) as [rest|e]; [exact IH|].
  destruct IH as [a' ->]. by eexists.
Qed.

Lemma foldl_add_plot (ps : list (Plot Cell)) (a : Axes Cell) :
  foldl (λ a p, add_plot p a) a ps
  = {| figsize := figsize a;
       plots := plots a ++ ps;
       xlabel := xlabel a; ylabel := ylabel a; title := title a;
       legend := legend a; grid := grid a;
       xticks_rotation := xticks_rotation a;
       tight_layout := tight_layout a |}.
Proof.
  revert a. induction ps as [|p ps IH]; intros a; simpl.
  - rewrite app_nil_r. by destruct a.
  - rewrite IH. simpl. by rewrite <- app_assoc.
Qed.

(** A run of a renderer, in full: the chart it describes is appended to
    pyplot's figures and its handle returned; a renderer that raises
    has opened [left_open] figures. Nothing else changes but the trace. *)
Lemma render_run (c : ChartType) df sel (u : list (Element Cell))
    (l : list (Axes Cell)) (fs : gmap nat bytes) (cs : list Call) :
  match chart L c df sel with
  | Ok a =>
      render L c df sel (mkWorld u l fs cs)
      = (mkWorld u (l ++ [a]) fs (cs ++ [call_of c]), Ok (length l))
  | Raise e =>
      ∃ left,
        render L c df sel (mkWorld u l fs cs)
        = (mkWorld u (l ++ left) fs (cs ++ [call_of c]), Raise e)
        ∧ length left = left_open L c df sel
  end.
Proof.
  destruct c; simpl.
  - unfold create_time_series_plot, time_series_chart, bind, enter, subplots,
      with_calls, with_figures. simpl.
    pose proof (plot_lines_run df sel l (blank_axes (12, 6)%Z) u fs
                  (cs ++ [call_time_series_plot])) as Hrun.
    destruct (line_plots L df sel) as [ps|e].
    + rewrite Hrun. unfold on_axes, on_current, ret, with_figures. simpl.
      by rewrite !alter_last, alter_current, foldl_add_plot.
    + destruct Hrun as [a' ->]. by exists [a'].
  - unfold create_boxplot, boxplot_chart, bind, enter, subplots, lift, on_axes,
      on_current, ret, with_calls, with_figures. simpl.
    destruct (getitems (columns df) sel) as [picked|e]; simpl.
    2:{ by eexists [_]. }
    destruct (sns_boxplot L (melt picked)) as [[]|e]; simpl.
    + by rewrite ?alter_last, ?alter_current.
    + by eexists [_].
  - unfold left_open, create_heatmap, heatmap_chart, heatmap_data, bind, enter,
      subplots, lift, on_axes, on_current, ret, with_calls, with_figures. simpl.
    destruct (getitems (columns df) sel) as [picked|e]; simpl.
    2:{ exists []. by rewrite app_nil_r. }
    destruct (corr L picked) as [m|e]; simpl.
    2:{ exists []. by rewrite app_nil_r. }
    destruct (sns_heatmap L picked.*1 m) as [[]|e]; simpl.
    + by rewrite ?alter_last, ?alter_current.
    + by eexists [_].
  - unfold left_open, create_annual_sales, annual_sales_chart, annual_data, bind,
      enter, subplots, lift, on_axes, on_current, ret, raise, with_calls, with_figures. simpl.
    destruct (index df) as [dates|]; simpl.
    2:{ exists []. by rewrite app_nil_r. }
    destruct (getitems _ sel) as [picked|e]; simpl.
    2:{ exists []. by rewrite app_nil_r. }
    destruct (getitems_every _ sel) as [shown|e]; simpl.
    2:{ by eexists [_]. }
    destruct (plot_bar L _ shown) as [[]|e]; simpl.
    + by rewrite ?alter_last, ?alter_current.
    + by eexists [_].
Qed.

Lemma render_chart (c : ChartType) df (sel : list string) w :
  chart_of (render L c df sel w) = chart L c df sel.
Proof.
  destruct w as [u l fs cs].
  pose proof (render_run c df sel u l fs cs) as Hrun.
  destruct (chart L c df sel) as [a|e].
  - rewrite Hrun. simpl. by rewrite lookup_last.
  - by destruct Hrun as (left & -> & _).
Qed.

Lemma create_time_series_plot_chart df (sel : list string) w :
  chart_of (create_time_series_plot L df sel w) = time_series_chart L df sel.
Proof. exact (render_chart TimeSeries df sel w). Qed.



Lemma create_annual_sales_chart df (sel : list string) w :
  chart_of (create_annual_sales L df sel w) = annual_sales_chart L df sel.
Proof. exact (render_chart AnnualSales df sel w). Qed.

End RenderFacts.

(** ** Facts about runs *)

Section RunFacts.
Context {Cell : Type}.
Implicit Types (w : World Cell) (R : relation (World Cell)).

Lemma bind_Ok_inv {A B} (m : M Cell A) (k : A → M Cell B) w w' (b : B) :
  bind m k w = (w', Ok b) → ∃ w1 a, m w = (w1, Ok a) ∧ k a w1 = (w', Ok b).
Proof.
  unfold bind. destruct (m w) as [w1 [a|e]]; [eauto | done].
Qed.

Lemma bind_Raise_inv {A B} (m : M Cell A) (k : A → M Cell B) w w' (e : Exn) :
  bind m k w = (w', Raise e) →
  m w = (w', Raise e) ∨ ∃ w1 a, m w = (w1, Ok a) ∧ k a w1 = (w', Raise e).
Proof.
  unfold bind. destruct (m w) as [w1 [a|e']]; [eauto|].
  intros [= -> ->]. by left.
Qed.

Lemma keeps_ret {A} R `{!Reflexive R} (a : A) : keeps R (ret a).
Proof. intros w w' r [= <- _]. done. Qed.

Lemma keeps_raise {A} R `{!Reflexive R} (e : Exn) : keeps R (raise (A:=A) e).
Proof. intros w w' r [= <- _]. done. Qed.

Lemma keeps_lift {A} R `{!Reflexive R} (x : Result A) : keeps R (lift x).
Proof. intros w w' r [= <- _]. done. Qed.

Lemma keeps_bind {A B} R `{!Transitive R} (m : M Cell A) (k : A → M Cell B) :
  keeps R m → (∀ a, keeps R (k a)) → keeps R (bind m k).
Proof.
  intros Hm Hk w w' r. unfold bind.
  destruct (m w) as [w1 [a|e]] eqn:E.
  - intros Hka. etrans; [by eapply Hm | by eapply Hk].
  - intros [= <- _]. by eapply Hm.
Qed.

Lemma keeps_to_raising {A} R (m : M Cell A) : keeps R m → keeps_raising R m.
Proof. intros H w w' e. apply H. Qed.

Lemma keeps_raising_bind {A B} R `{!Transitive R} (m : M Cell A) (k : A → M Cell B) :
  keeps R m → (∀ a, keeps_raising R (k a)) → keeps_raising R (bind m k).
Proof.
  intros Hm Hk w w' e [H|(w1 & a & H1 & H2)]%bind_Raise_inv.
  - by eapply Hm.
  - etrans; [by eapply Hm | by eapply Hk].
Qed.

Lemma keeps_raising_st R (e : Element Cell) : keeps_raising R (st e).
Proof. intros w w' x. unfold st. done. Qed.

Global Instance same_page_refl : Reflexive (same_page (Cell:=Cell)).
Proof. by intros w. Qed.
Global Instance same_page_trans : Transitive (same_page (Cell:=Cell)).
Proof. unfold same_page. intros w1 w2 w3 H1 H2. congruence. Qed.

Global Instance page_only_refl : Reflexive (page_only (Cell:=Cell)).
Proof. by intros w. Qed.
Global Instance page_only_trans : Transitive (page_only (Cell:=Cell)).
Proof.
  unfold page_only. intros w1 w2 w3 (?&?&?) (?&?&?). split_and!; congruence.
Qed.

Global Instance grew_by_refl P : Reflexive (grew_by (Cell:=Cell) P).
Proof. intros w. exists []. by rewrite app_nil_r. Qed.
Global Instance grew_by_trans P : Transitive (grew_by (Cell:=Cell) P).
Proof.
  intros w1 w2 w3 (n1 & H1 & F1) (n2 & H2 & F2). exists (n1 ++ n2).
  split; [by rewrite H2, H1, app_assoc | by apply Forall_app].
Qed.

Lemma same_page_grew P w w' : same_page w w' → grew_by P w w'.
Proof. intros H. exists []. by rewrite app_nil_r. Qed.

Lemma keeps_weaken {A} R R' (m : M Cell A) :
  (∀ w w', R w w' → R' w w') → keeps R m → keeps R' m.
Proof. intros Himp Hm w w' r Hrun. apply Himp. by eapply Hm. Qed.

(** The primitives. *)
Lemma st_page_only (e : Element Cell) : keeps page_only (st e).
Proof. by intros w w' r [= <- _]. Qed.

Lemma st_grew P (e : Element Cell) : P e → keeps (grew_by P) (st e).
Proof.
  intros He w w' r [= <- _]. exists [e]. split; [done|]. by constructor.
Qed.

Lemma enter_same_page (c : Call) : keeps (same_page (Cell:=Cell)) (enter c).
Proof. by intros w w' r [= <- _]. Qed.

Lemma subplots_same_page (sz : Z * Z) : keeps (same_page (Cell:=Cell)) (subplots sz).
Proof. by intros w w' r [= <- _]. Qed.

Lemma on_axes_same_page (n : nat) (f : Axes Cell → Axes Cell) :
  keeps same_page (on_axes n f).
Proof. by intros w w' r [= <- _]. Qed.

Lemma on_current_same_page (f : Axes Cell → Axes Cell) :
  keeps same_page (on_current f).
Proof. by intros w w' r [= <- _]. Qed.

Lemma figure_same_page (n : nat) : keeps (same_page (Cell:=Cell)) (figure n).
Proof.
  intros w w' r. unfold figure. destruct (figures w !! n); by intros [= <- _].
Qed.

Lemma named_temporary_file_same_page :
  keeps (same_page (Cell:=Cell)) named_temporary_file.
Proof. by intros w w' r [= <- _]. Qed.

Lemma write_file_same_page (p : nat) (c : bytes) :
  keeps (same_page (Cell:=Cell)) (write_file p c).
Proof. by intros w w' r [= <- _]. Qed.

Lemma read_file_same_page (p : nat) : keeps (same_page (Cell:=Cell)) (read_file p).
Proof.
  intros w w' r. unfold read_file. destruct (files w !! p); by intros [= <- _].
Qed.

Lemma unlink_same_page (p : nat) : keeps (same_page (Cell:=Cell)) (unlink p).
Proof.
  intros w w' r. unfold unlink. destruct (files w !! p); by intros [= <- _].
Qed.

End RunFacts.

Create HintDb keeps discriminated.

#[export] Hint Resolve st_page_only enter_same_page subplots_same_page
  on_axes_same_page on_current_same_page figure_same_page
  named_temporary_file_same_page
  write_file_same_page read_file_same_page unlink_same_page : keeps.

(** Walks down a script term: binds, branches, then the primitives. *)
Ltac keeps_step :=
  match goal with
  | |- keeps _ (bind _ _) => apply keeps_bind; [typeclasses eauto | | intros ?]
  | |- keeps _ (ret _) => apply keeps_ret; typeclasses eauto
  | |- keeps _ (raise _) => apply keeps_raise; typeclasses eauto
  | |- keeps _ (lift _) => apply keeps_lift; typeclasses eauto
  | |- keeps _ (match ?x with _ => _ end) => destruct x
  | |- keeps _ (if ?x then _ else _) => destruct x
  | |- keeps (grew_by _) (st _) => apply st_grew; exact I
  | |- keeps _ _ => solve [eauto with keeps]
  | |- keeps (grew_by _) _ =>
      apply (keeps_weaken same_page); [apply same_page_grew|]
  end.

Ltac keeps_auto := cbv zeta; repeat keeps_step.

(** Runs the monad's plumbing as far as it computes. *)
Ltac run :=
  repeat (progress (unfold bind, lift, ret, raise, try_except, st, enter; simpl)).

(** ** Facts about the script's functions *)

Section ScriptFacts.
Context {Cell : Type} (L : Library Cell).
Implicit Types (w : World Cell) (df : DataFrame Cell) (sel : list string).

Lemma plot_lines_same_page (fig : nat) df sel :
  keeps same_page (plot_lines L fig df sel).
Proof. induction sel as [|n ns IH]; simpl; keeps_auto. Qed.

Lemma render_same_page (c : ChartType) df sel :
  keeps same_page (render L c df sel).
Proof.
  pose proof plot_lines_same_page.
  destruct c; simpl;
    unfold create_time_series_plot, create_boxplot, create_heatmap,
      create_annual_sales; keeps_auto.
Qed.

Lemma create_pdf_report_same_page (fig : nat) (d : string) :
  keeps same_page (create_pdf_report L fig d).
Proof. unfold create_pdf_report; keeps_auto. Qed.

Lemma create_word_report_same_page (fig : nat) (d : string) :
  keeps same_page (create_word_report L fig d).
Proof. unfold create_word_report; keeps_auto. Qed.

(** Loading and the widgets only write to the page. *)
Lemma index_by_page_only df (c : string) : keeps page_only (index_by L df c).
Proof. unfold index_by. keeps_auto. Qed.

Lemma load_table_page_only (f : UploadedFile) : keeps page_only (load_table L f).
Proof.
  pose proof index_by_page_only. unfold load_table. keeps_auto.
Qed.

Lemma controls_page_only (i : Interaction) (cats : list string) :
  keeps (page_only (Cell:=Cell)) (controls i cats).
Proof. unfold controls. keeps_auto. Qed.

(** Up to the download links, nothing the script writes is a link or an
    error message. *)
Lemma index_by_grew P df (c : string) : keeps (grew_by P) (index_by L df c).
Proof. unfold index_by. keeps_auto. Qed.

Lemma load_table_silent (f : UploadedFile) :
  keeps (grew_by silent) (load_table L f).
Proof. pose proof (index_by_grew silent). unfold load_table. keeps_auto. Qed.

Lemma load_table_no_result (f : UploadedFile) :
  keeps (grew_by no_result) (load_table L f).
Proof. pose proof (index_by_grew no_result). unfold load_table. keeps_auto. Qed.

Lemma controls_silent (i : Interaction) (cats : list string) :
  keeps (grew_by (Cell:=Cell) silent) (controls i cats).
Proof. unfold controls. keeps_auto. Qed.

Lemma controls_no_result (i : Interaction) (cats : list string) :
  keeps (grew_by (Cell:=Cell) no_result) (controls i cats).
Proof. unfold controls. keeps_auto. Qed.

Lemma generate_raising_grew (i : Interaction) df sel :
  keeps_raising (grew_by silent) (generate L i df sel).
Proof.
  pose proof (render_same_page).
  pose proof (create_pdf_report_same_page).
  pose proof (create_word_report_same_page).
  unfold generate. destruct sel as [|x xs]; [apply keeps_raising_st|].
  do 8 (apply keeps_raising_bind; [typeclasses eauto | keeps_auto | intros ?]).
  cbv zeta. intros w w' e. unfold bind, st. simpl. done.
Qed.

Lemma try_body_raising_grew (f : UploadedFile) (i : Interaction) :
  keeps_raising (grew_by silent) (try_body L f i).
Proof.
  unfold try_body.
  apply keeps_raising_bind; [typeclasses eauto | apply load_table_silent | intros ?].
  apply keeps_raising_bind; [typeclasses eauto | apply controls_silent | intros ?].
  destruct (button_pressed i).
  - apply generate_raising_grew.
  - intros w w' e. done.
Qed.

End ScriptFacts.

(** ** The loader *)

Section LoaderFacts.
Context {Cell : Type} (L : Library Cell).
Implicit Types (w : World Cell) (df raw : DataFrame Cell).

Lemma explicit_date_column_resolve raw :
  resolve_date_column (column_names raw)
  = match explicit_date_column raw with
    | Some c => Some c
    | None => column_names raw !! 0
    end.
Proof.
  unfold resolve_date_column, explicit_date_column.
  by repeat case_bool_decide.
Qed.

Lemma explicit_date_column_falls_back raw :
  falls_back (column_names raw) = true ↔ explicit_date_column raw = None.
Proof.
  unfold falls_back, explicit_date_column.
  repeat case_bool_decide; simpl; split; done.
Qed.

Lemma column_names_set_index raw (c : string) (dates : list Timestamp) :
  column_names (set_index raw c dates) = filter (λ n, n ≠ c) (column_names raw).
Proof.
  unfold column_names, set_index. simpl.
  induction (columns raw) as [|[k v] cols IH]; [done|]. simpl.
  rewrite !filter_cons. simpl. destruct (decide (k ≠ c)); simpl; by f_equal.
Qed.

(** C3. Once the upload is parsed, the date column is "datum" if the
    table has one, else "date" if it has one, else the first column,
    and in that last case only a warning is written. When its cells
    convert to dates, the loader returns the table indexed by those
    dates, and the categories are the other columns in their order. *)
Theorem date_column_resolution (f : UploadedFile) w raw (c : string)
    (cells : list Cell) (dates : list Timestamp) :
  run_parser L (choose_parser f) f = Ok raw →
  resolve_date_column (column_names raw) = Some c →
  assoc c (columns raw) = Some cells →
  to_datetime L cells = Ok dates →
  ∃ w' df cats,
    load_table L f w = (w', Ok (df, cats))
    ∧ index df = Some dates
    ∧ columns df = filter (λ kv, kv.1 ≠ c) (columns raw)
    ∧ cats = filter (λ n, n ≠ c) (column_names raw)
    ∧ written w w' =
        [Subheader "Data Preview"; Dataframe (head raw)]
        ++ (if falls_back (column_names raw) then [Warning no_date_warning] else []).
Proof.
  intros Hparse Hres Hcol Hdates.
  rewrite explicit_date_column_resolve in Hres.
  pose proof (explicit_date_column_falls_back raw) as Hfb.
  unfold load_table, index_by, getitem, written. run.
  rewrite Hparse. run.
  destruct (explicit_date_column raw) as [c'|] eqn:Hexp.
  - injection Hres as ->. run. rewrite Hcol. run. rewrite Hdates. run.
    destruct (falls_back (column_names raw)) eqn:Hf.
    { destruct Hfb as [Hfb _]. by specialize (Hfb eq_refl). }
    eexists _, _, _. split_and!; try done.
    + apply column_names_set_index.
    + simpl. by rewrite <- !app_assoc, drop_app_length.
  - destruct (column_names raw) as [|c0 names] eqn:Hnames; [done|].
    injection Hres as ->. run. rewrite Hcol. run. rewrite Hdates. run.
    destruct (falls_back (c :: names)) eqn:Hf.
    2:{ destruct Hfb as [_ Hfb]. by specialize (Hfb eq_refl). }
    eexists _, _, _. split_and!; try done.
    + rewrite column_names_set_index. by rewrite Hnames.
    + simpl. by rewrite <- !app_assoc, drop_app_length.
Qed.

End LoaderFacts.

Section ParserFacts.
Context {Cell : Type} (L : Library Cell).
Import PyStr.

Lemma endswith_last (s suffix : string) (c : ascii) :
  endswith s suffix = true →
  last (list_ascii_of_string suffix) = Some c →
  last (list_ascii_of_string s) = Some c.
Proof.
  unfold endswith. intros [k ->]%bool_decide_eq_true Hlast.
  rewrite last_app. by rewrite Hlast.
Qed.

Lemma endswith_excel_not_csv (s : string) :
  endswith s ".xlsx" = true ∨ endswith s ".xls" = true →
  endswith s ".csv" = false.
Proof.
  intros Hx. destruct (endswith s ".csv") eqn:Hcsv; [|done].
  pose proof (endswith_last _ _ "v" Hcsv eq_refl) as Hv.
  destruct Hx as [Hx|Hx].
  - pose proof (endswith_last _ _ "x" Hx eq_refl). congruence.
  - pose proof (endswith_last _ _ "s" Hx eq_refl). congruence.
Qed.

(** C9, as amended. The loader chooses the parser by the file's name:
    of the accepted files, those whose name ends in [.csv] are read with
    the CSV parser and the others, which end in [.xlsx] or [.xls], with
    the Excel parser; either parser is handed the upload held in
    memory. *)
Theorem parser_chosen_by_file_name (f : UploadedFile) :
  accepted f →
  (choose_parser f = CsvParser ↔ endswith (name f) ".csv" = true)
  ∧ (choose_parser f = ExcelParser ↔
     endswith (name f) ".xlsx" = true ∨ endswith (name f) ".xls" = true)
  ∧ run_parser L (choose_parser f) f
    = if endswith (name f) ".csv" then read_csv L f else read_excel L f.
Proof.
  intros (t & Ht & Hend). unfold choose_parser. split_and!.
  - destruct (endswith (name f) ".csv"); split; done.
  - split.
    + destruct (endswith (name f) ".csv") eqn:Hcsv; [done|]. intros _.
      unfold accepted_types in Ht.
      repeat (apply elem_of_cons in Ht as [->|Ht]);
        cbv [String.append] in Hend;
        [congruence | by left | by right | by apply elem_of_nil in Ht].
    + intros Hx%endswith_excel_not_csv. by rewrite Hx.
  - by destruct (endswith (name f) ".csv").
Qed.

End ParserFacts.

(** C9, as stated, fails: two accepted uploads with the same MIME type
    are read by different parsers, so the parser is not a function of the
    MIME type. *)
Lemma parser_not_chosen_by_mime_type :
  ¬ ∃ by_mime : string → Parser,
      ∀ f : UploadedFile, accepted f → choose_parser f = by_mime (type f).
Proof.
  intros [g Hg].
  assert (H1 : accepted Demo.csv_as_excel).
  { exists "csv". split; [by left | by vm_compute]. }
  assert (H2 : accepted Demo.xls_upload).
  { exists "xls". split; [do 2 right; by left | by vm_compute]. }
  apply Hg in H1, H2. simpl in H1, H2.
  assert (Hc : choose_parser Demo.csv_as_excel = CsvParser) by by vm_compute.
  assert (Hx : choose_parser Demo.xls_upload = ExcelParser) by by vm_compute.
  congruence.
Qed.

(** ** The interaction *)

Section InteractionFacts.
Context {Cell : Type} (L : Library Cell).
Implicit Types (w : World Cell) (df : DataFrame Cell) (i : Interaction).

Lemma written_grew (P : Element Cell → Prop) w w' :
  grew_by P w w' → Forall P (written w w').
Proof.
  intros (new & Hui & Hnew). unfold written.
  by rewrite Hui, drop_app_length.
Qed.

(** C1. With a table loaded and the button pressed, an empty selection
    ends the interaction with the error message on the page: no
    renderer and no report writer is entered, no figure is opened, no
    file is written, and nothing written to the page is a chart or a
    download link. *)
Theorem empty_selection_short_circuits i (f : UploadedFile) w w1 df
    (cats : list string) :
  uploaded_file i = Some f →
  button_pressed i = true →
  load_table L f w = (w1, Ok (df, cats)) →
  selection i cats = [] →
  ∃ w2,
    main L i w = (w2, Ok tt)
    ∧ last (ui w2) = Some (Error empty_selection_message)
    ∧ calls w2 = calls w
    ∧ figures w2 = figures w
    ∧ files w2 = files w
    ∧ Forall no_result (written w w2).
Proof.
  intros Hf Hb Hload Hsel.
  destruct (load_table_page_only L f w w1 _ Hload) as (Hfig & Hfiles & Hcalls).
  pose proof (load_table_no_result L f w w1 _ Hload) as Hgrew.
  unfold main, try_body. rewrite Hf. run. rewrite Hload. run.
  unfold controls. run. rewrite Hsel, Hb. unfold generate. run.
  eexists. split; [done|]. unfold with_ui. simpl. split_and!; try done.
  - by rewrite last_snoc.
  - apply written_grew.
    destruct Hgrew as (new & Hui & Hnew). rewrite Hui.
    eexists. rewrite <- !app_assoc. split; [done|].
    apply Forall_app. split; [done|]. by repeat constructor.
Qed.

Lemma error_message_distinct (e : Exn) : error_message e ≠ empty_selection_message.
Proof. unfold error_message, empty_selection_message. cbv [String.append]. done. Qed.

(** C6, as amended. An exception raised while loading, parsing,
    rendering or writing the reports ends the interaction at the one
    handler, which writes a message holding the exception's text and
    returns; there is no retry. What was written before the exception
    stays on the page, and none of it is a download link or an error
    message; the message, last on the page, is not the one of the empty
    selection. *)
Theorem exceptions_end_at_the_handler i (f : UploadedFile) w w' (e : Exn) :
  uploaded_file i = Some f →
  try_body L f i w = (w', Raise e) →
  main L i w = (with_ui (λ l, l ++ [Error (error_message e)]) w', Ok tt)
  ∧ Forall silent (written w w')
  ∧ error_message e ≠ empty_selection_message.
Proof.
  intros Hf Hbody. split_and!.
  - unfold main. rewrite Hf. unfold try_except. by rewrite Hbody.
  - apply written_grew. by eapply try_body_raising_grew.
  - apply error_message_distinct.
Qed.

End InteractionFacts.

(** ** The report writers *)

Section ReportFacts.
Context {Cell : Type} (L : Library Cell).
Implicit Types (w : World Cell).
Import Wrap.

Lemma temp_file_removed (fs : gmap nat bytes) (content : bytes) :
  delete (fresh (dom fs)) (<[fresh (dom fs) := content]> (<[fresh (dom fs) := []]> fs))
  = fs.
Proof.
  rewrite insert_insert_eq. apply delete_insert_id.
  apply not_elem_of_dom, is_fresh.
Qed.

(** A PDF report that is returned: the page holds the wrapped text and
    the rasterized figure, and the temporary file is gone. *)
Lemma create_pdf_report_Ok (fig : nat) (d : string) w w' (buf : Buffer) :
  create_pdf_report L fig d w = (w', Ok buf) →
  ∃ chart png stream,
    figures w !! fig = Some chart
    ∧ savefig L chart "png" 300 "tight" = Ok png
    ∧ draw_image L png = Ok stream
    ∧ buf = PdfBuffer {| pdf_title := "Drug Sales Data Visualization Report";
                         pdf_label := "Description:";
                         pdf_text := wrap_description d;
                         pdf_image := stream |}
    ∧ w' = with_calls (λ l, l ++ [call_pdf_report]) w.
Proof.
  destruct w as [u l fs cs].
  unfold create_pdf_report, named_temporary_file, figure, write_file,
    read_file, unlink, with_files, with_calls. run.
  destruct (l !! fig) as [chart|] eqn:Hfig; [|done]. run.
  destruct (savefig L chart "png" 300 "tight") as [png|] eqn:Hpng; [|done]. run.
  rewrite !lookup_insert_eq. run.
  destruct (draw_image L png) as [stream|] eqn:Hdraw; [|done]. run.
  destruct (canvas_save L _); [|done]. run.
  rewrite !lookup_insert_eq. run. rewrite temp_file_removed.
  intros [= <- <-]. by eexists _, _, _.
Qed.

Lemma create_word_report_Ok (fig : nat) (d : string) w w' (buf : Buffer) :
  create_word_report L fig d w = (w', Ok buf) →
  ∃ chart png blob,
    figures w !! fig = Some chart
    ∧ savefig L chart "png" 300 "tight" = Ok png
    ∧ add_picture L png = Ok blob
    ∧ buf = DocxBuffer [Heading "Drug Sales Data Visualization Report" 0;
                        Heading "Description:" 1;
                        Paragraph d;
                        Heading "Visualization:" 1;
                        Picture blob 6]
    ∧ w' = with_calls (λ l, l ++ [call_word_report]) w.
Proof.
  destruct w as [u l fs cs].
  unfold create_word_report, named_temporary_file, figure, write_file,
    read_file, unlink, with_files, with_calls. run.
  destruct (add_paragraph L d) as [[]|]; [|done]. run.
  destruct (l !! fig) as [chart|] eqn:Hfig; [|done]. run.
  destruct (savefig L chart "png" 300 "tight") as [png|] eqn:Hpng; [|done]. run.
  rewrite !lookup_insert_eq. run.
  destruct (add_picture L png) as [blob|] eqn:Hpic; [|done]. run.
  destruct (document_save L _); [|done]. run.
  rewrite !lookup_insert_eq. run. rewrite temp_file_removed.
  intros [= <- <-]. by eexists _, _, _.
Qed.

(** Every exception a report writer ends in once it has made its
    temporary file leaves the file behind: there is no [finally] around
    [os.unlink]. The PDF writer makes the file before any call that
    raises; the Word writer adds its paragraph first. *)
Lemma create_pdf_report_Raise (fig : nat) (d : string) w w' (e : Exn) :
  create_pdf_report L fig d w = (w', Raise e) →
  is_Some (files w' !! fresh (dom (files w))).
Proof.
  destruct w as [u l fs cs].
  unfold create_pdf_report, named_temporary_file, figure, write_file,
    read_file, unlink, with_files, with_calls. run.
  destruct (l !! fig) as [chart|] eqn:Hfig; run.
  2:{ intros [= <- _]. simpl. rewrite lookup_insert_eq. by eexists. }
  destruct (savefig L chart "png" 300 "tight") as [png|] eqn:Hpng; run.
  2:{ intros [= <- _]. simpl. rewrite lookup_insert_eq. by eexists. }
  rewrite !lookup_insert_eq. run.
  destruct (draw_image L png); run.
  2:{ intros [= <- _]. simpl. rewrite lookup_insert_eq. by eexists. }
  destruct (canvas_save L _); run.
  2:{ intros [= <- _]. simpl. rewrite lookup_insert_eq. by eexists. }
  rewrite !lookup_insert_eq. run. done.
Qed.

Lemma create_word_report_Raise (fig : nat) (d : string) w w' (e : Exn) :
  add_paragraph L d = Ok tt →
  create_word_report L fig d w = (w', Raise e) →
  is_Some (files w' !! fresh (dom (files w))).
Proof.
  intros Hpar. destruct w as [u l fs cs].
  unfold create_word_report, named_temporary_file, figure, write_file,
    read_file, unlink, with_files, with_calls. run.
  rewrite Hpar. run.
  destruct (l !! fig) as [chart|] eqn:Hfig; run.
  2:{ intros [= <- _]. simpl. rewrite lookup_insert_eq. by eexists. }
  destruct (savefig L chart "png" 300 "tight") as [png|] eqn:Hpng; run.
  2:{ intros [= <- _]. simpl. rewrite lookup_insert_eq. by eexists. }
  rewrite !lookup_insert_eq. run.
  destruct (add_picture L png); run.
  2:{ intros [= <- _]. simpl. rewrite lookup_insert_eq. by eexists. }
  destruct (document_save L _); run.
  2:{ intros [= <- _]. simpl. rewrite lookup_insert_eq. by eexists. }
  rewrite !lookup_insert_eq. run. done.
Qed.


End ReportFacts.

(** C4 fails on the code. With an image the document library cannot
    read, both report writers raise after the temporary file was written,
    and the file is still there afterwards. *)
Theorem temp_file_left_when_embedding_fails :
  let L := Demo.library Demo.sales false in
  files Demo.with_chart = ∅
  ∧ (∃ w', create_pdf_report L 0 "text" Demo.with_chart
           = (w', Raise "cannot identify image file")
           ∧ files w' = {[ 0 := Demo.png ]})
  ∧ (∃ w', create_word_report L 0 "text" Demo.with_chart
           = (w', Raise "cannot identify image file")
           ∧ files w' = {[ 0 := Demo.png ]}).
Proof.
  split_and!; [done | |]; eexists; (split; [vm_compute; reflexivity | done]).
Qed.

(** ** The description on the PDF page *)

Section WrappedDescription.
Context {Cell : Type} (L : Library Cell).
Import PyStr Wrap Layout.

(** C5. The text of the description is wrapped at whitespace, greedily,
    at 80 characters. The words the wrapper works on are the runs of
    characters between whitespace, in order, and no other reading of
    the text as words exists. The lines are these words dealt out in
    order, each followed by one separator: a line takes words while
    line, word and separator stay within 80, the next line starts with
    the word that did not fit. The first line starts empty, so it is
    written out empty when the first word alone does not fit. There is
    exactly one way to break the words like this, and these lines are
    the text of every PDF report written for the description. *)
Theorem description_wrapped_greedily (description : string) :
  tokens description (split description)
  ∧ (∀ ws, tokens description ws → ws = split description)
  ∧ ∃ groups,
      greedy_lines (split description) groups
      ∧ (∀ groups', greedy_lines (split description) groups' → groups' = groups)
      ∧ wrap_description description = spaced <$> groups
      ∧ ∀ (fig : nat) (w w' : World Cell) (doc : PdfDoc),
          create_pdf_report L fig description w = (w', Ok (PdfBuffer doc)) →
          pdf_text doc = spaced <$> groups.
Proof.
  assert (Hlines : wrap_description description
                   = spaced <$> pack_groups [] (split description)).
  { unfold wrap_description. rewrite wrap_words_greedy.
    apply (greedy_pack_groups []). }
  split_and!.
  - destruct (tokens_exist description) as [ws Hws].
    by rewrite (tokens_split _ _ Hws).
  - intros ws Hws. symmetry. by apply tokens_split.
  - exists (pack_groups [] (split description)). split_and!.
    + apply pack_groups_greedy.
    + intros G' HG'. eapply greedy_lines_unique; [exact HG'|].
      apply pack_groups_greedy.
    + done.
    + intros fig w w' doc
        (c & png & stream & _ & _ & _ & [= ->] & _)%create_pdf_report_Ok.
      by rewrite <- Hlines.
Qed.

End WrappedDescription.


(** ** The charts *)

Section ChartFacts.
Context {Cell : Type} (L : Library Cell).
Implicit Types (w : World Cell) (df : DataFrame Cell) (sel : list string).





(** The data of the annual chart, when they can be computed. *)
Lemma annual_data_Ok df sel (years : list Z) (yearly : list (string * list Cell)) :
  annual_data L df sel = Ok (years, yearly) →
  ∃ dates,
    index df = Some dates
    ∧ sel ⊆ column_names (with_years L df dates)
    ∧ years = group_keys (year <$> dates)
    ∧ yearly = yearly_series L df dates sel.
Proof.
  unfold annual_data. destruct (index df) as [dates|]; [|done].
  destruct (getitems _ sel) as [picked|] eqn:Hp; [|done].
  intros [= <- <-]. exists dates.
  apply getitems_columns in Hp as [-> Hsub].
  split_and!; [done | done | done |].
  unfold yearly_series. rewrite <- list_fmap_compose.
  apply list_fmap_ext. intros _ n _. unfold compose, prod_map. simpl.
  by rewrite yearly_sums_rows.
Qed.


(** The annual chart that is drawn: its series are per-year sums of
    selected columns of the table with the "Year" column set, and every
    selected label has one. *)
Lemma annual_sales_series df sel (a : Axes Cell) :
  annual_sales_chart L df sel = Ok a →
  ∃ dates series,
    index df = Some dates
    ∧ plots a = [BarPlot (group_keys (year <$> dates)) series]
    ∧ getitems_every (yearly_series L df dates sel) sel = Ok series
    ∧ plot_bar L (group_keys (year <$> dates)) series = Ok tt
    ∧ sel ⊆ series.*1
    ∧ Forall (λ s, s.1 ∈ sel ∧ s.2 = yearly_totals L df dates s.1) series.
Proof.
  unfold annual_sales_chart.
  destruct (annual_data L df sel) as [[years yearly]|] eqn:Hdata; [|done].
  apply annual_data_Ok in Hdata as (dates & Hidx & _ & -> & ->).
  destruct (getitems_every _ sel) as [shown|] eqn:Hs; [|done].
  destruct (plot_bar L _ shown) as [[]|] eqn:Hbar; [|done].
  intros [= <-]. exists dates, shown. simpl.
  split_and!; [done | done | done | done | |].
  - intros n Hn. apply list_elem_of_fmap.
    exists (n, yearly_totals L df dates n). split; [done|].
    apply (elem_of_getitems_every _ _ _ _ Hs). split; [|done].
    unfold yearly_series. apply list_elem_of_fmap. by exists n.
  - apply Forall_forall. intros kv [Hkv Hk]%(elem_of_getitems_every _ _ _ _ Hs).
    split; [done|]. unfold yearly_series in Hkv.
    by apply list_elem_of_fmap in Hkv as (n & -> & _).
Qed.


(** The bars of the annual chart: the bar of a selected column in a year
    of the index is the sum of the cells that column has, in the table
    with the "Year" column set, in the rows of that year. *)
Lemma annual_sales_bar_totals df sel (dates : list Timestamp) (c : string)
    (y : Z) w (a : Axes Cell) :
  index df = Some dates →
  c ∈ sel →
  y ∈ year <$> dates →
  chart_of (create_annual_sales L df sel w) = Ok a →
  bar_value a c y
  = Some (agg_sum L (rows_of_year y (year <$> dates)
                       (column (with_years L df dates) c))).
Proof.
  intros Hidx Hc Hy. rewrite create_annual_sales_chart.
  intros (dates' & series & Hidx' & Hplots & Hs & _ & _ & _)%annual_sales_series.
  assert (dates' = dates) as -> by congruence.
  unfold bar_value. rewrite Hplots. simpl.
  rewrite (assoc_getitems_every _ _ _ _ Hs Hc).
  assert (Hseries : assoc c (yearly_series L df dates sel)
                    = Some (yearly_totals L df dates c)).
  { unfold yearly_series. clear -Hc.
    induction sel as [|n ns IH]; [by apply elem_of_nil in Hc|]. simpl.
    destruct (decide (n = c)) as [->|Hne]; [done|].
    apply elem_of_cons in Hc as [->|Hc]; [done | by apply IH]. }
  rewrite Hseries. simpl. unfold yearly_totals.
  by rewrite aligned_fmap by by apply elem_of_group_keys.
Qed.

(** For the columns other than "Year" these are the cells of the
    table's own column. *)
Lemma annual_sales_bar df sel (dates : list Timestamp) (c : string)
    (cells : list Cell) (y : Z) w (a : Axes Cell) :
  index df = Some dates →
  c ∈ sel → c ≠ "Year" →
  assoc c (columns df) = Some cells →
  y ∈ year <$> dates →
  chart_of (create_annual_sales L df sel w) = Ok a →
  bar_value a c y
  = Some (agg_sum L (rows_of_year y (year <$> dates) cells)).
Proof.
  intros Hidx Hc Hne Hcol Hy Ha.
  rewrite (annual_sales_bar_totals df sel dates c y w a) by done.
  unfold column, with_years. simpl. rewrite assoc_setitem.
  rewrite decide_False by done. by rewrite Hcol.
Qed.

End ChartFacts.

(** C2 fails on the code for a column called "Year". The renderer stores
    the year of each row under that label before grouping, so the bar of a
    selected "Year" column is the sum of the row years, not of the
    column's cells: for one row dated 2020 with 5 in the column, the bar
    is 2020 and the sum of the column over the year is 5. *)
Theorem year_column_is_overwritten :
  let L := Demo.library Demo.sales true in
  ∃ a, chart_of (create_annual_sales L Demo.with_year_column ["Year"] Demo.start) = Ok a
       ∧ bar_value a "Year" 2020 = Some 2020%Z
       ∧ agg_sum L (rows_of_year 2020 [2020%Z] [5%Z]) = 5%Z.
Proof. eexists. split; [vm_compute; reflexivity | by vm_compute]. Qed.

(** ** The theorems at work on the demo library *)

(** C6 fails on the code as stated ("no partial output"): when the report
    cannot be written, the interaction ends in the handler with the chart
    already on the page. *)
Lemma chart_stays_when_report_fails :
  ∃ w' a,
    try_body (Demo.library Demo.sales false) Demo.csv_upload
      (Demo.press None TimeSeries) Demo.start
    = (w', Raise "cannot identify image file")
    ∧ Pyplot a ∈ written Demo.start w'
    ∧ written Demo.start w' ≠ [].
Proof.
  eexists _, _. split; [vm_compute; reflexivity|].
  split; [|done]. unfold written. simpl.
  do 9 right. left.
Qed.

Lemma date_column_resolution_witness :
  let L := Demo.library Demo.sales true in
  let cells := [20200115; 20200220; 20210310]%Z in
  let dates := [mkTimestamp 2020 1 15; mkTimestamp 2020 2 20; mkTimestamp 2021 3 10] in
  run_parser L (choose_parser Demo.csv_upload) Demo.csv_upload = Ok Demo.sales
  ∧ resolve_date_column (column_names Demo.sales) = Some "date"
  ∧ assoc "date" (columns Demo.sales) = Some cells
  ∧ to_datetime L cells = Ok dates
  ∧ ∃ w' df cats,
      load_table L Demo.csv_upload Demo.start = (w', Ok (df, cats))
      ∧ index df = Some dates
      ∧ columns df = filter (λ kv, kv.1 ≠ "date") (columns Demo.sales)
      ∧ cats = filter (λ n, n ≠ "date") (column_names Demo.sales)
      ∧ written Demo.start w' =
          [Subheader "Data Preview"; Dataframe (head Demo.sales)]
          ++ (if falls_back (column_names Demo.sales)
              then [Warning no_date_warning] else []).
Proof.
  intros L cells dates.
  assert (H1 : run_parser L (choose_parser Demo.csv_upload) Demo.csv_upload
               = Ok Demo.sales) by reflexivity.
  assert (H2 : resolve_date_column (column_names Demo.sales) = Some "date")
    by reflexivity.
  assert (H3 : assoc "date" (columns Demo.sales) = Some cells) by reflexivity.
  assert (H4 : to_datetime L cells = Ok dates) by (vm_compute; reflexivity).
  do 4 (split; [assumption|]).
  exact (date_column_resolution L Demo.csv_upload Demo.start Demo.sales "date"
           cells dates H1 H2 H3 H4).
Defined.

Lemma parser_chosen_by_file_name_witness :
  let L := Demo.library Demo.sales true in
  let f := Demo.xls_upload in
  accepted f
  ∧ (choose_parser f = CsvParser ↔ PyStr.endswith (name f) ".csv" = true)
  ∧ (choose_parser f = ExcelParser ↔
     PyStr.endswith (name f) ".xlsx" = true ∨ PyStr.endswith (name f) ".xls" = true)
  ∧ run_parser L (choose_parser f) f
    = if PyStr.endswith (name f) ".csv" then read_csv L f else read_excel L f.
Proof.
  intros L f.
  assert (H : accepted f).
  { exists "xls". split; [do 2 right; left | vm_compute; reflexivity]. }
  split; [exact H|].
  exact (parser_chosen_by_file_name L f H).
Defined.

Lemma empty_selection_short_circuits_witness :
  let L := Demo.library Demo.sales true in
  let i := Demo.press (Some []) AnnualSales in
  let w1 := (load_table L Demo.csv_upload Demo.start).1 in
  let df := set_index Demo.sales "date"
              [mkTimestamp 2020 1 15; mkTimestamp 2020 2 20; mkTimestamp 2021 3 10] in
  let cats := ["DrugA"; "DrugB"] in
  uploaded_file i = Some Demo.csv_upload
  ∧ button_pressed i = true
  ∧ load_table L Demo.csv_upload Demo.start = (w1, Ok (df, cats))
  ∧ selection i cats = []
  ∧ ∃ w2,
      main L i Demo.start = (w2, Ok tt)
      ∧ last (ui w2) = Some (Error empty_selection_message)
      ∧ calls w2 = calls Demo.start
      ∧ figures w2 = figures Demo.start
      ∧ files w2 = files Demo.start
      ∧ Forall no_result (written Demo.start w2).
Proof.
  intros L i w1 df cats.
  assert (H1 : uploaded_file i = Some Demo.csv_upload) by reflexivity.
  assert (H2 : button_pressed i = true) by reflexivity.
  assert (H3 : load_table L Demo.csv_upload Demo.start = (w1, Ok (df, cats)))
    by (vm_compute; reflexivity).
  assert (H4 : selection i cats = []) by reflexivity.
  do 4 (split; [assumption|]).
  exact (empty_selection_short_circuits L i Demo.csv_upload Demo.start w1 df cats
           H1 H2 H3 H4).
Defined.

Lemma exceptions_end_at_the_handler_witness :
  let L := Demo.library Demo.bad_dates true in
  let i := Demo.press None TimeSeries in
  let w' := (try_body L Demo.csv_upload i Demo.start).1 in
  let e := "Unknown datetime string format" in
  uploaded_file i = Some Demo.csv_upload
  ∧ try_body L Demo.csv_upload i Demo.start = (w', Raise e)
  ∧ main L i Demo.start = (with_ui (λ l, l ++ [Error (error_message e)]) w', Ok tt)
  ∧ Forall silent (written Demo.start w')
  ∧ error_message e ≠ empty_selection_message.
Proof.
  intros L i w' e.
  assert (H1 : uploaded_file i = Some Demo.csv_upload) by reflexivity.
  assert (H2 : try_body L Demo.csv_upload i Demo.start = (w', Raise e))
    by (vm_compute; reflexivity).
  split; [exact H1|]. split; [exact H2|].
  exact (exceptions_end_at_the_handler L i Demo.csv_upload Demo.start w' e H1 H2).
Defined.



(** The script on the demo table: two year buckets for three monthly rows
    over 2020 and 2021, the fallback with its warning, and a complete
    interaction that ends with the two download links and no temporary
    file left. *)
Example annual_sales_two_years :
  let L := Demo.library Demo.sales true in
  let df := set_index Demo.sales "date"
              [mkTimestamp 2020 1 15; mkTimestamp 2020 2 20; mkTimestamp 2021 3 10] in
  ∃ a, chart_of (create_annual_sales L df ["DrugA"; "DrugB"] Demo.start) = Ok a
       ∧ plots a = [BarPlot [2020; 2021]%Z
                      [("DrugA", [3; 3]%Z); ("DrugB", [30; 30]%Z)]].
Proof. eexists. split; [vm_compute; reflexivity | done]. Qed.

Example first_column_fallback :
  let L := Demo.library Demo.unnamed_dates true in
  ∃ w' df,
    load_table L Demo.csv_upload Demo.start = (w', Ok (df, ["DrugA"]))
    ∧ index df = Some [mkTimestamp 2020 1 15; mkTimestamp 2020 2 20]
    ∧ last (ui w') = Some (Warning no_date_warning).
Proof. eexists _, _. split; [vm_compute; reflexivity | done]. Qed.

Example complete_interaction :
  let L := Demo.library Demo.sales true in
  ∃ w' pdf docx,
    main L (Demo.press None BoxPlotChart) Demo.start = (w', Ok tt)
    ∧ drop 12 (ui w')
      = [Markdown (get_download_link (PdfBuffer pdf) "drug_sales_report.pdf"
                     "Download PDF Report");
         Markdown (get_download_link (DocxBuffer docx) "drug_sales_report.docx"
                     "Download Word Report")]
    ∧ pdf_image pdf = Demo.pixels Demo.png
    ∧ docx_image docx = Some Demo.png
    ∧ files w' = ∅
    ∧ calls w' = [call_boxplot; call_pdf_report; call_word_report].
Proof.
  eexists _, _, _. split; [vm_compute; reflexivity|]. by vm_compute.
Qed.

(** The plotting calls at work. The bar plot has nothing to draw for an
    empty selection, and the annual chart raises with its figure open.
    A label picked twice is selected twice from a frame that has it
    twice already: four series. A file with a header line only loads,
    and the interaction ends in the error message of the bar plot. *)
Example annual_sales_without_columns :
  let L := Demo.library Demo.sales true in
  ∃ w', create_annual_sales L Runs.indexed [] Runs.loaded
        = (w', Raise "no numeric data to plot")
        ∧ length (figures w') = 1.
Proof. eexists. split; [vm_compute; reflexivity | done]. Qed.

Example annual_sales_label_twice :
  let L := Demo.library Demo.sales true in
  ∃ a, chart_of (create_annual_sales L Runs.indexed ["DrugA"; "DrugA"] Runs.loaded)
       = Ok a
       ∧ plots a = [BarPlot [2020; 2021]%Z
                      [("DrugA", [3; 3]%Z); ("DrugA", [3; 3]%Z);
                       ("DrugA", [3; 3]%Z); ("DrugA", [3; 3]%Z)]].
Proof. eexists. split; [vm_compute; reflexivity | done]. Qed.

Example header_only_file_ends_in_error :
  let L := Demo.library Runs.header_only true in
  ∃ w', main L (Demo.press None AnnualSales) Demo.start = (w', Ok tt)
        ∧ last (ui w')
          = Some (Error "Error processing file: no numeric data to plot")
        ∧ Forall no_result (ui w')
        ∧ length (figures w') = 1
        ∧ calls w' = [call_annual_sales].
Proof.
  eexists. split; [vm_compute; reflexivity|].
  split_and!; [done | | done | done].
  repeat constructor.
Qed.

(** ** The download link *)

Section Base64Facts.
Import Base64.

Example b64encode_Man : b64encode [Byte.x4d; Byte.x61; Byte.x6e] = "TWFu".
Proof. reflexivity. Qed.
Example b64encode_Ma : b64encode [Byte.x4d; Byte.x61] = "TWE=".
Proof. reflexivity. Qed.
Example b64encode_M : b64encode [Byte.x4d] = "TQ==".
Proof. reflexivity. Qed.

Lemma byte_val_bounded (b : Byte.byte) : (0 ≤ byte_val b < 256)%Z.
Proof. unfold byte_val. pose proof (Byte.to_N_bounded b). lia. Qed.

Lemma byte_of_val_byte_val (b : Byte.byte) : byte_of_val (byte_val b) = Some b.
Proof. unfold byte_of_val, byte_val. by rewrite N2Z.id, Byte.of_to_N. Qed.

Lemma b64index_b64char (n : Z) : (0 ≤ n < 64)%Z → b64index (b64char n) = Some n.
Proof.
  intros Hn.
  assert (Hall : Forall (λ k, b64index (b64char (Z.of_nat k)) = Some (Z.of_nat k))
                   (seq 0 64)).
  { apply Forall_forall. intros k Hk. apply elem_of_seq in Hk.
    do 64 (destruct k as [|k]; [reflexivity|]). lia. }
  rewrite Forall_forall in Hall.
  specialize (Hall (Z.to_nat n)). rewrite Z2Nat.id in Hall by lia.
  apply Hall, elem_of_seq. lia.
Qed.

Lemma b64char_not_pad (n : Z) : (0 ≤ n < 64)%Z → b64char n ≠ pad.
Proof.
  intros Hn Heq. pose proof (b64index_b64char n Hn) as H.
  rewrite Heq in H. vm_compute in H. done.
Qed.

End Base64Facts.

Section Base64Facts2.
Import Base64.

Local Arguments b64char : simpl never.
Local Arguments b64index : simpl never.
Local Arguments byte_of_val : simpl never.
Local Arguments byte_val : simpl never.
Local Arguments Z.mul : simpl never.
Local Arguments Z.add : simpl never.
Local Arguments Z.div : simpl never.
Local Arguments Z.modulo : simpl never.

(** Induction three bytes at a time. *)
Lemma bytes_ind3 (P : bytes → Prop) :
  P [] → (∀ x, P [x]) → (∀ x y, P [x; y]) →
  (∀ x y z rest, P rest → P (x :: y :: z :: rest)) →
  ∀ b, P b.
Proof.
  intros H0 H1 H2 H3 b.
  assert (H : P b ∧ (∀ x, P (x :: b)) ∧ (∀ x y, P (x :: y :: b))).
  { induction b as [|z b (IH0 & IH1 & IH2)]; [done|].
    split_and!; [apply IH1 | intros; apply IH2 | intros; by apply H3]. }
  apply H.
Qed.

Lemma byte_of_val_eq (v : Z) (b : Byte.byte) :
  v = byte_val b → byte_of_val v = Some b.
Proof. intros ->. apply byte_of_val_byte_val. Qed.

Ltac sextets := Z.div_mod_to_equations; lia.

Ltac b64_step :=
  first
    [ rewrite b64index_b64char by sextets
    | rewrite decide_False by (apply b64char_not_pad; sextets)
    | match goal with
      | b : Byte.byte |- context [byte_of_val ?v] =>
          rewrite (byte_of_val_eq v b) by sextets
      end ];
  simpl.

Lemma b64decode_b64encode (b : bytes) : b64decode (b64encode b) = Some b.
Proof.
  induction b as [|x|x y|x y z rest IH] using bytes_ind3.
  - done.
  - pose proof (byte_val_bounded x). simpl. by repeat b64_step.
  - pose proof (byte_val_bounded x). pose proof (byte_val_bounded y).
    simpl. by repeat b64_step.
  - pose proof (byte_val_bounded x). pose proof (byte_val_bounded y).
    pose proof (byte_val_bounded z).
    simpl. repeat b64_step. by rewrite IH.
Qed.

End Base64Facts2.

Section LinkFacts.
Import Base64.

(** No double quote among the characters of [s]. *)
Lemma until_quote_app (a rest : string) :
  Forall (λ c, c ≠ "034"%char) (list_ascii_of_string a) →
  until_quote (a +:+ dquote +:+ rest) = Some a.
Proof.
  induction a as [|c a IH]; intros Hq.
  - reflexivity.
  - simpl in Hq. apply Forall_cons in Hq as [Hc Ha].
    change (String c a +:+ dquote +:+ rest)
      with (String c (a +:+ dquote +:+ rest)).
    simpl. rewrite decide_False by done. by rewrite IH.
Qed.

Lemma b64char_no_quote (n : Z) : b64char n ≠ "034"%char.
Proof.
  unfold b64char. destruct (nth_in_or_default (Z.to_nat n) alphabet pad) as [Hin | ->].
  - intros Heq. rewrite Heq in Hin. vm_compute in Hin.
    repeat (destruct Hin as [Hin|Hin]; [discriminate Hin|]). done.
  - done.
Qed.

Lemma b64encode_no_quote (b : bytes) :
  Forall (λ c, c ≠ "034"%char) (list_ascii_of_string (b64encode b)).
Proof.
  induction b as [|x|x y|x y z rest IH] using bytes_ind3;
    cbn [b64encode list_ascii_of_string];
    repeat (apply Forall_cons; split;
            [first [apply b64char_no_quote | discriminate]|]);
    first [assumption | constructor].
Qed.

Lemma list_ascii_app (a b : string) :
  list_ascii_of_string (a +:+ b) = list_ascii_of_string a ++ list_ascii_of_string b.
Proof.
  induction a as [|c a IH]; [done|].
  change (String c a +:+ b) with (String c (a +:+ b)). simpl. by f_equal.
Qed.

(** X1. The link [get_download_link] builds carries the buffer: whatever
    the bytes, the file name and the link text, the [href] attribute is
    the data URL with the base64 text of the bytes, which no byte can end
    early, and that text decodes to the bytes. *)
Theorem download_link_carries_the_buffer (content : bytes)
    (download_filename link_text : string) :
  href_of (download_link_html content download_filename link_text)
  = Some (href_prefix +:+ b64encode content)
  ∧ b64decode (b64encode content) = Some content.
Proof.
  split; [|apply b64decode_b64encode].
  unfold download_link_html.
  assert (Hhead : ∀ x, "<a href=" +:+ dquote +:+ x
                       = String "<" (String "a" (String " " (String "h" (String "r"
                           (String "e" (String "f" (String "=" (String "034" x)))))))))
    by reflexivity.
  rewrite Hhead. cbn [href_of]. rewrite <- (app_assoc_str href_prefix).
  apply until_quote_app. rewrite list_ascii_app. apply Forall_app. split.
  - vm_compute. repeat (constructor; [done|]). constructor.
  - apply b64encode_no_quote.
Qed.
End LinkFacts.


(** ** The report writers, run forward *)

Section ReportRuns.
Context {Cell : Type} (L : Library Cell).
Implicit Types (w : World Cell).
Import Wrap.



(** What a report writer that raises has done to the world: one file
    more, under the fresh name, and the call noted. The Word writer
    adds the description to the document before it makes the file; an
    exception from there leaves no file. *)
Lemma create_pdf_report_raises (fig : nat) (d : string) w w' (e : Exn) :
  create_pdf_report L fig d w = (w', Raise e) →
  ∃ content,
    w' = with_files (insert (fresh (dom (files w))) content)
           (with_calls (λ l, l ++ [call_pdf_report]) w).
Proof.
  destruct w as [u l fs cs].
  unfold create_pdf_report, named_temporary_file, figure, write_file,
    read_file, unlink, with_files, with_calls. run.
  destruct (l !! fig) as [chart|] eqn:Hfig; run.
  2:{ intros [= <- _]. by eexists. }
  destruct (savefig L chart "png" 300 "tight") as [png|] eqn:Hpng; run.
  2:{ intros [= <- _]. by eexists. }
  rewrite !lookup_insert_eq. run.
  destruct (draw_image L png); run.
  2:{ intros [= <- _]. rewrite insert_insert_eq. by eexists. }
  destruct (canvas_save L _); run.
  2:{ intros [= <- _]. rewrite insert_insert_eq. by eexists. }
  rewrite !lookup_insert_eq. run. done.
Qed.

Lemma create_word_report_raises (fig : nat) (d : string) w w' (e : Exn) :
  create_word_report L fig d w = (w', Raise e) →
  match add_paragraph L d with
  | Raise e' => e = e' ∧ w' = with_calls (λ l, l ++ [call_word_report]) w
  | Ok _ =>
      ∃ content,
        w' = with_files (insert (fresh (dom (files w))) content)
               (with_calls (λ l, l ++ [call_word_report]) w)
  end.
Proof.
  destruct w as [u l fs cs].
  unfold create_word_report, named_temporary_file, figure, write_file,
    read_file, unlink, with_files, with_calls. run.
  destruct (add_paragraph L d) as [[]|e']; run.
  2:{ by intros [= <- <-]. }
  destruct (l !! fig) as [chart|] eqn:Hfig; run.
  2:{ intros [= <- _]. by eexists. }
  destruct (savefig L chart "png" 300 "tight") as [png|] eqn:Hpng; run.
  2:{ intros [= <- _]. by eexists. }
  rewrite !lookup_insert_eq. run.
  destruct (add_picture L png); run.
  2:{ intros [= <- _]. rewrite insert_insert_eq. by eexists. }
  destruct (document_save L _); run.
  2:{ intros [= <- _]. rewrite insert_insert_eq. by eexists. }
  rewrite !lookup_insert_eq. run. done.
Qed.

End ReportRuns.

(** ** Further properties of the interaction *)

Section InteractionProperties.
Context {Cell : Type} (L : Library Cell).
Implicit Types (w : World Cell) (df raw : DataFrame Cell) (i : Interaction)
  (sel : list string).


(** X3. As long as the button is not pressed, a loaded table is only
    previewed and the widgets are drawn: the selection is not looked at, no
    renderer and no report writer is entered, no figure is opened and no
    file is written. *)
Theorem nothing_rendered_before_the_button i (f : UploadedFile) w w1 df
    (cats : list string) :
  uploaded_file i = Some f →
  button_pressed i = false →
  load_table L f w = (w1, Ok (df, cats)) →
  ∃ w2,
    main L i w = (w2, Ok tt)
    ∧ written w1 w2 =
        [Header "2. Create Visualization";
         Multiselect "Select drug categories to visualize:" cats
           (default_selection cats);
         Selectbox "Select chart type:"
           [TimeSeries; BoxPlotChart; CorrelationHeatmap; AnnualSales];
         TextInput "Graph Title" "Drug Sales Analysis";
         TextArea "Graph Description (max 80 words):" default_description 400;
         Button "Generate Visualization"]
    ∧ calls w2 = calls w
    ∧ figures w2 = figures w
    ∧ files w2 = files w.
Proof.
  intros Hf Hb Hload.
  destruct (load_table_page_only L f w w1 _ Hload) as (Hfig & Hfiles & Hcalls).
  unfold main, try_body. rewrite Hf. run. rewrite Hload. run.
  unfold controls. run. rewrite Hb. run.
  eexists. split; [done|]. unfold with_ui, written. simpl.
  split_and!; try done.
  by rewrite <- !app_assoc, drop_app_length.
Qed.

(** X4. [render] enters the renderer of the chosen chart type and no
    other function of the script, writes nothing to the page and touches
    no file. Every figure pyplot held is still there, unchanged; a run that
    returns has opened exactly one more, the chart, and returns its
    handle. *)
Theorem render_enters_one_renderer (c : ChartType) df sel w w' (r : Result nat) :
  render L c df sel w = (w', r) →
  calls w' = calls w ++ [call_of c]
  ∧ ui w' = ui w
  ∧ files w' = files w
  ∧ figures w `prefix_of` figures w'
  ∧ match r with
    | Ok fig =>
        ∃ a, chart L c df sel = Ok a
             ∧ figures w' = figures w ++ [a]
             ∧ fig = length (figures w)
    | Raise e => chart L c df sel = Raise e
    end.
Proof.
  destruct w as [u l fs cs]. pose proof (render_run L c df sel u l fs cs) as Hrun.
  destruct (chart L c df sel) as [a|e].
  - rewrite Hrun. intros [= <- <-]. simpl.
    split_and!; try done; [by apply prefix_app_r | by exists a].
  - destruct Hrun as (left & -> & _). intros [= <- <-]. simpl.
    split_and!; try done. by apply prefix_app_r.
Qed.

(** X5. A renderer that raises leaves at most one figure open. The time
    series and the box plot open theirs before they read the columns
    and always leave it. The heat map and the annual chart open theirs
    between computing their data and drawing them: they leave none when
    a column is missing, the correlation fails or the table has no date
    index, and one when it is the plotting call that raises. *)
Theorem failed_render_figures (c : ChartType) df sel w w' (e : Exn) :
  render L c df sel w = (w', Raise e) →
  length (figures w') = length (figures w) + left_open L c df sel
  ∧ left_open L c df sel ≤ 1
  ∧ match c with
    | TimeSeries | BoxPlotChart => True
    | CorrelationHeatmap =>
        match heatmap_data L df sel with
        | Ok (labels, m) => sns_heatmap L labels m = Raise e
        | Raise e' => e = e'
        end
    | AnnualSales =>
        match annual_data L df sel with
        | Ok (years, yearly_sales) =>
            match getitems_every yearly_sales sel with
            | Ok shown => plot_bar L years shown = Raise e
            | Raise e' => e = e'
            end
        | Raise e' => e = e'
        end
    end.
Proof.
  destruct w as [u l fs cs]. pose proof (render_run L c df sel u l fs cs) as Hrun.
  destruct (chart L c df sel) as [a|e'] eqn:Hchart.
  - by rewrite Hrun.
  - destruct Hrun as (left & -> & Hlen). intros [= <- <-]. simpl.
    rewrite length_app, Hlen. split; [done|]. split.
    + unfold left_open. destruct c; [lia | lia | |];
        [destruct (heatmap_data L df sel) | destruct (annual_data L df sel)]; lia.
    + destruct c; simpl in Hchart; [done | done | |].
      * unfold heatmap_chart in Hchart.
        destruct (heatmap_data L df sel) as [[labels m]|]; [|congruence].
        destruct (sns_heatmap L labels m) as [[]|]; congruence.
      * unfold annual_sales_chart in Hchart.
        destruct (annual_data L df sel) as [[years yearly]|]; [|congruence].
        destruct (getitems_every yearly sel) as [shown|]; [|congruence].
        destruct (plot_bar L years shown) as [[]|]; congruence.
Qed.

(** X11. When the parser raises, the page shows the error message and
    nothing else of the interaction: no preview, no widget. *)
Theorem parser_failure_shows_only_the_error i (f : UploadedFile) w (e : Exn) :
  uploaded_file i = Some f →
  run_parser L (choose_parser f) f = Raise e →
  main L i w = (with_ui (λ l, l ++ [Error (error_message e)]) w, Ok tt).
Proof.
  intros Hf Hparse. unfold main, try_body, load_table. rewrite Hf. run.
  by rewrite Hparse.
Qed.

(** X12. When the cells of the date column do not convert, the loader
    raises the converter's exception after the preview (and, for a first
    column taken as the date column, after the warning): there is no table
    and no silent fallback. *)
Theorem unparseable_dates_raise (f : UploadedFile) w raw (c : string)
    (cells : list Cell) (e : Exn) :
  run_parser L (choose_parser f) f = Ok raw →
  resolve_date_column (column_names raw) = Some c →
  assoc c (columns raw) = Some cells →
  to_datetime L cells = Raise e →
  ∃ w',
    load_table L f w = (w', Raise e)
    ∧ written w w' =
        [Subheader "Data Preview"; Dataframe (head raw)]
        ++ (if falls_back (column_names raw) then [Warning no_date_warning] else []).
Proof.
  intros Hparse Hres Hcol Hdates.
  rewrite explicit_date_column_resolve in Hres.
  pose proof (explicit_date_column_falls_back raw) as Hfb.
  unfold load_table, index_by, getitem, written. run.
  rewrite Hparse. run.
  destruct (explicit_date_column raw) as [c'|] eqn:Hexp.
  - injection Hres as ->. run. rewrite Hcol. run. rewrite Hdates. run.
    destruct (falls_back (column_names raw)) eqn:Hf.
    { destruct Hfb as [Hfb _]. by specialize (Hfb eq_refl). }
    eexists. split; [done|]. simpl. by rewrite <- !app_assoc, drop_app_length.
  - destruct (column_names raw) as [|c0 names] eqn:Hnames; [done|].
    injection Hres as ->. run. rewrite Hcol. run. rewrite Hdates. run.
    destruct (falls_back (c :: names)) eqn:Hf.
    2:{ destruct Hfb as [_ Hfb]. by specialize (Hfb eq_refl). }
    eexists. split; [done|]. simpl. by rewrite <- !app_assoc, drop_app_length.
Qed.

(** X13. A parsed table without any column makes the loader raise the
    index error of [df.columns[0]], after the preview and the warning. *)
Theorem no_columns_raise (f : UploadedFile) w raw :
  run_parser L (choose_parser f) f = Ok raw →
  columns raw = [] →
  ∃ w',
    load_table L f w
    = (w', Raise "index 0 is out of bounds for axis 0 with size 0")
    ∧ written w w' = [Subheader "Data Preview"; Dataframe (head raw);
                      Warning no_date_warning].
Proof.
  intros Hparse Hcols.
  unfold load_table, explicit_date_column, column_names, written. run.
  rewrite Hparse. run. rewrite Hcols. run.
  eexists. split; [done|]. simpl. by rewrite <- !app_assoc, drop_app_length.
Qed.

End InteractionProperties.

(** ** Further properties of the renderers *)

Section RendererProperties.
Context {Cell : Type} (L : Library Cell).
Implicit Types (w : World Cell) (df : DataFrame Cell) (sel : list string).

Lemma getitems_missing (cols : list (string * list Cell)) sel (n : string) :
  n ∈ sel → n ∉ cols.*1 → ∃ e, getitems cols sel = Raise e.
Proof.
  induction sel as [|m ms IH]; [by intros ?%elem_of_nil|].
  intros Hin Hn. simpl.
  destruct (assoc m cols) as [cells|] eqn:Hm; [|by eexists].
  apply elem_of_cons in Hin as [->|Hin].
  - by apply assoc_Some_elem_of in Hm.
  - destruct (IH Hin Hn) as [e ->]. by eexists.
Qed.

Lemma line_plots_missing df sel (n : string) :
  n ∈ sel → n ∉ column_names df → ∃ e, line_plots L df sel = Raise e.
Proof.
  induction sel as [|m ms IH]; [by intros ?%elem_of_nil|].
  intros Hin Hn. simpl. unfold getitem.
  destruct (assoc m (columns df)) as [cells|] eqn:Hm; [|by eexists].
  destruct (ax_plot L (index df) cells); [|by eexists].
  apply elem_of_cons in Hin as [->|Hin].
  - by apply assoc_Some_elem_of in Hm.
  - destruct (IH Hin Hn) as [e ->]. by eexists.
Qed.

Lemma line_plots_total df sel :
  sel ⊆ column_names df →
  (∀ n, n ∈ sel → ax_plot L (index df) (column df n) = Ok tt) →
  line_plots L df sel = Ok (column_line df <$> sel).
Proof.
  induction sel as [|n ns IH]; intros Hsub Hplot; simpl; [done|].
  destruct (elem_of_assoc_is_Some n (columns df)) as [cells Hn].
  { apply Hsub. left. }
  pose proof (Hplot n ltac:(left)) as Hpn.
  unfold column in Hpn. rewrite Hn in Hpn. simpl in Hpn.
  unfold getitem. rewrite Hn, Hpn.
  rewrite IH.
  - unfold column_line at 2, column. by rewrite Hn.
  - intros x Hx. apply Hsub. by right.
  - intros x Hx. apply Hplot. by right.
Qed.

Lemma line_labels_fmap df sel :
  omap (λ p, match p with LinePlot l => Some (line_label l) | _ => None end)
       (column_line df <$> sel)
  = sel.
Proof. induction sel as [|n ns IH]; simpl; [done | by f_equal]. Qed.

Lemma line_xs_fmap df sel :
  omap (λ p, match p with LinePlot l => Some (line_x l) | _ => None end)
       (column_line df <$> sel)
  = replicate (length sel) (index df).
Proof. induction sel as [|n ns IH]; simpl; [done | by f_equal]. Qed.

(** X6. On a selection of columns of the table the time series raises
    only if [ax.plot] does. When [ax.plot] accepts each selected column,
    the renderer returns a chart with one line per selected column,
    labelled by the column and in the order of the selection, every
    line with the cells of its column over the same x values, the index
    of the table. *)
Theorem time_series_draws_the_selection df sel w :
  sel ⊆ column_names df →
  (∀ n, n ∈ sel → ax_plot L (index df) (column df n) = Ok tt) →
  ∃ a, chart_of (create_time_series_plot L df sel w) = Ok a
       ∧ plots a = column_line df <$> sel
       ∧ line_labels a = sel
       ∧ line_xs a = replicate (length sel) (index df)
       ∧ length (plots a) = length sel.
Proof.
  intros Hsub Hplot. rewrite create_time_series_plot_chart.
  unfold time_series_chart. rewrite line_plots_total by done.
  eexists. split; [done|]. unfold line_labels, line_xs. simpl.
  by rewrite line_labels_fmap, line_xs_fmap, length_fmap.
Qed.





(** X8. A selected label that is not a column makes the renderer raise;
    the annual chart does so too, unless the label is "Year", the column it
    adds itself. *)
Theorem missing_column_raises (c : ChartType) df sel (n : string) w :
  n ∈ sel →
  n ∉ column_names df →
  (c = AnnualSales → n ≠ "Year") →
  ∃ w' e, render L c df sel w = (w', Raise e).
Proof.
  intros Hin Hn Hyear.
  assert (Hchart : ∃ e, chart L c df sel = Raise e).
  { destruct c; simpl.
    - unfold time_series_chart.
      destruct (line_plots_missing df sel n Hin Hn) as [e ->]. by eexists.
    - unfold boxplot_chart.
      destruct (getitems_missing (columns df) sel n Hin Hn) as [e ->]. by eexists.
    - unfold heatmap_chart, heatmap_data.
      destruct (getitems_missing (columns df) sel n Hin Hn) as [e ->]. by eexists.
    - unfold annual_sales_chart, annual_data.
      destruct (index df) as [dates|]; [|by eexists].
      destruct (getitems_missing
                  (setitem (columns df) "Year" (cell_of_year L <$> (year <$> dates)))
                  sel n Hin) as [e ->]; [|by eexists].
      intros [x Hx]%elem_of_assoc_is_Some. rewrite assoc_setitem in Hx.
      rewrite decide_False in Hx by (intros <-; by apply Hyear).
      by apply assoc_Some_elem_of in Hx. }
  destruct Hchart as [e He]. destruct w as [u l fs cs].
  pose proof (render_run L c df sel u l fs cs) as Hrun. rewrite He in Hrun.
  destruct Hrun as (left & -> & _). by eexists _, _.
Qed.


End RendererProperties.

(** ** The interaction that goes through *)

Section CompleteInteraction.
Context {Cell : Type} (L : Library Cell).
Implicit Types (w : World Cell) (df : DataFrame Cell) (i : Interaction)
  (sel : list string).
Import Wrap.


End CompleteInteraction.

(** ** Failures between the chart and the links *)

Section HandlerFailures.
Context {Cell : Type} (L : Library Cell).
Implicit Types (w : World Cell) (df : DataFrame Cell) (i : Interaction)
  (sel : list string).
Import Wrap.

(** X14. A report writer that returns has removed its temporary file:
    the directory is as it was before the call, and so are the page and
    the figures; the buffer returned embeds an image. *)
Theorem report_writers_restore_the_directory (fig : nat) (d : string) w w'
    (buf : Buffer) :
  create_pdf_report L fig d w = (w', Ok buf)
  ∨ create_word_report L fig d w = (w', Ok buf) →
  files w' = files w ∧ ui w' = ui w ∧ figures w' = figures w
  ∧ is_Some (image_payload buf).
Proof.
  intros [(c & p & s & _ & _ & _ & -> & ->)%create_pdf_report_Ok
         |(c & p & b & _ & _ & _ & -> & ->)%create_word_report_Ok];
    simpl; split_and!; try done; by eexists.
Qed.

(** X15. A report writer that raises has changed neither the page nor
    the figures, and leaves at most one file more in the directory. The
    PDF writer always leaves one, the temporary file it made under a
    name not in use before. So does the Word writer, unless it is
    [add_paragraph] that raised: the description is added to the
    document before the temporary file is made, and then the directory
    is as it was. *)
Theorem report_failure_leaves_one_file (fig : nat) (d : string) w w' (e : Exn) :
  create_pdf_report L fig d w = (w', Raise e)
  ∨ create_word_report L fig d w = (w', Raise e) →
  files w !! fresh (dom (files w)) = None
  ∧ ui w' = ui w ∧ figures w' = figures w
  ∧ (create_pdf_report L fig d w = (w', Raise e) →
     ∃ content, files w' = <[fresh (dom (files w)) := content]> (files w))
  ∧ (create_word_report L fig d w = (w', Raise e) →
     match add_paragraph L d with
     | Ok _ => ∃ content, files w' = <[fresh (dom (files w)) := content]> (files w)
     | Raise e' => e = e' ∧ files w' = files w
     end).
Proof.
  intros H. split; [apply not_elem_of_dom, is_fresh|].
  assert (Hsame : ui w' = ui w ∧ figures w' = figures w).
  { destruct H as [[content ->]%create_pdf_report_raises
                  |H%create_word_report_raises]; [done|].
    destruct (add_paragraph L d); [by destruct H as [content ->]|].
    by destruct H as [_ ->]. }
  destruct Hsame as [Hui Hfig]. split_and!; [done | done | |].
  - intros [content ->]%create_pdf_report_raises. by eexists.
  - intros Hw%create_word_report_raises.
    destruct (add_paragraph L d).
    + destruct Hw as [content ->]. by eexists.
    + by destruct Hw as [-> ->].
Qed.

(** X16. When the renderer raises, the handler stops there: only the
    subheader was written, no report writer is entered and no file is
    made. *)
Theorem failed_render_stops_before_reports i df sel w (e : Exn) :
  sel ≠ [] →
  chart L (chart_type i) df sel = Raise e →
  ∃ w',
    generate L i df sel w = (w', Raise e)
    ∧ written w w' = [Subheader "3. Generated Visualization"]
    ∧ files w' = files w
    ∧ calls w' = calls w ++ [call_of (chart_type i)].
Proof.
  intros Hsel Hchart.
  destruct w as [u l fs cs]. destruct sel as [|x xs]; [done|].
  pose proof (render_run L (chart_type i) df (x :: xs)
                (u ++ [Subheader "3. Generated Visualization"]) l fs cs) as Hrun.
  rewrite Hchart in Hrun. destruct Hrun as (left & Hrun & _).
  unfold generate, bind at 1, st at 1, with_ui. simpl.
  unfold bind at 1. rewrite Hrun.
  eexists. split; [done|]. unfold written. simpl. split_and!; try done.
  by rewrite drop_app_length.
Qed.

(** X17. When the PDF cannot take the image, the handler stops in the
    PDF writer: the chart is on the page, the Word writer is never
    entered, whether or not it would have succeeded, no link is written and
    the temporary PNG stays in the directory. *)
Theorem failed_pdf_stops_word_report i df sel w (a : Axes Cell) (png : bytes)
    (e : Exn) :
  sel ≠ [] →
  chart L (chart_type i) df sel = Ok a →
  savefig L a "png" 300 "tight" = Ok png →
  draw_image L png = Raise e →
  ∃ w',
    generate L i df sel w = (w', Raise e)
    ∧ written w w' = [Subheader "3. Generated Visualization"; Pyplot a;
                      Header "4. Download Report"; Columns 2]
    ∧ calls w' = calls w ++ [call_of (chart_type i); call_pdf_report]
    ∧ files w' = <[fresh (dom (files w)) := png]> (files w).
Proof.
  intros Hsel Hchart Hpng Hdraw.
  destruct w as [u l fs cs]. destruct sel as [|x xs]; [done|].
  pose proof (render_run L (chart_type i) df (x :: xs)
                (u ++ [Subheader "3. Generated Visualization"]) l fs cs) as Hrun.
  rewrite Hchart in Hrun.
  unfold generate, bind at 1, st at 1, with_ui. simpl.
  unfold bind at 1. rewrite Hrun.
  unfold bind at 1, figure. simpl. rewrite lookup_last.
  unfold bind at 1, st at 1, with_ui. simpl.
  unfold bind at 1, st at 1, with_ui. simpl.
  unfold bind at 1, st at 1, with_ui. simpl.
  unfold bind at 1.
  unfold create_pdf_report, named_temporary_file, figure, write_file,
    read_file, unlink, with_files, with_calls. run.
  rewrite lookup_last. run. rewrite Hpng. run.
  rewrite !lookup_insert_eq. run. rewrite Hdraw. run.
  eexists. split; [done|]. unfold written. simpl. split_and!.
  - by rewrite <- !app_assoc, drop_app_length.
  - by rewrite <- !app_assoc.
  - by rewrite insert_insert_eq.
Qed.

(** X18. The default of the multiselect is the first three categories,
    or all of them when there are fewer: a prefix of the categories, empty
    only when the table has no category at all. *)
Theorem default_selection_is_a_prefix (drug_categories : list string) :
  default_selection drug_categories = take 3 drug_categories
  ∧ default_selection drug_categories `prefix_of` drug_categories
  ∧ length (default_selection drug_categories) = min 3 (length drug_categories)
  ∧ (default_selection drug_categories = [] ↔ drug_categories = []).
Proof.
  assert (H : default_selection drug_categories = take 3 drug_categories).
  { unfold default_selection.
    destruct (3 <=? length drug_categories)%nat eqn:E; [done|].
    apply Nat.leb_gt in E. rewrite take_ge; [done | lia]. }
  rewrite H. split_and!.
  - done.
  - apply prefix_take.
  - apply length_take.
  - destruct drug_categories; simpl; split; done.
Qed.

End HandlerFailures.

(** ** Further properties of the wrapper *)

Section WrapProperties.
Import PyStr Wrap.

Lemma greedy_pack_head (limit : nat) (ws : list string) (line first : string)
    (rest : list string) :
  greedy_pack limit line ws = first :: rest → len line ≤ len first.
Proof.
  revert line. induction ws as [|w ws IH]; intros line; simpl.
  - destruct (truthy line); [by intros [= <- _] | done].
  - destruct (len line + len w + 1 <=? limit)%nat.
    + intros H%IH. rewrite !len_app in H. lia.
    + by intros [= <- _].
Qed.

Lemma greedy_pack_adjacent (ws : list string) (line : string) (k : nat)
    (l1 l2 : string) :
  greedy_pack 80 line ws !! k = Some l1 →
  greedy_pack 80 line ws !! S k = Some l2 →
  80 < len l1 + len l2.
Proof.
  revert line k. induction ws as [|w ws IH]; intros line k; simpl.
  - destruct (truthy line); [|done]. by destruct k.
  - destruct (len line + len w + 1 <=? 80)%nat eqn:E; [apply IH|].
    apply Nat.leb_gt in E. destruct k as [|k]; simpl.
    + intros [= <-] H2.
      destruct (greedy_pack 80 (w +:+ " ") ws) as [|first rest] eqn:Hg; [done|].
      injection H2 as <-. apply greedy_pack_head in Hg.
      rewrite len_app in Hg. simpl in Hg. lia.
    + apply IH.
Qed.

(** X19. Two consecutive lines of the wrapped description never fit on
    one line: their lengths add up to more than 80, so no line break is
    made that greedy filling could have spared. *)
Theorem wrapped_lines_cannot_be_merged (description : string) (k : nat)
    (l1 l2 : string) :
  wrap_description description !! k = Some l1 →
  wrap_description description !! S k = Some l2 →
  80 < len l1 + len l2.
Proof.
  unfold wrap_description. rewrite wrap_words_greedy. apply greedy_pack_adjacent.
Qed.

Lemma greedy_pack_spaced (limit : nat) (ws : list string) (line : string) :
  ends_with_space line → Forall ends_with_space (greedy_pack limit line ws).
Proof.
  revert line. induction ws as [|w ws IH]; intros line Hline; simpl.
  - destruct (truthy line); by repeat constructor.
  - assert (Hw : ends_with_space (w +:+ " ")) by by exists w.
    destruct (len line + len w + 1 <=? limit)%nat.
    + apply IH. exists (line +:+ w). by rewrite app_assoc_str.
    + constructor; [done | by apply IH].
Qed.

Lemma ends_with_space_truthy (l : string) : ends_with_space l → l ≠ "".
Proof.
  intros [p ->] H. apply (f_equal len) in H. rewrite len_app in H.
  simpl in H. lia.
Qed.

(** X20. Every line of the wrapped description ends with a space,
    except that the text starts with an empty line exactly when its first
    word is longer than 79 characters; no other line is empty. *)
Theorem blank_line_only_before_a_long_first_word (description : string) :
  (wrap_description description !! 0 = Some ""
   ↔ ∃ w, split description !! 0 = Some w ∧ 79 < len w)
  ∧ Forall ends_with_space (tail (wrap_description description))
  ∧ Forall (λ l, l = "" ∨ ends_with_space l) (wrap_description description).
Proof.
  unfold wrap_description. rewrite wrap_words_greedy.
  destruct (split description) as [|w ws]; simpl.
  { split_and!; [|done..]. split; [done | by intros (w & [=] & _)]. }
  assert (Hw : ends_with_space (w +:+ " ")) by by exists w.
  change (len "") with 0. simpl.
  destruct (len w + 1 <=? 80)%nat eqn:E.
  - apply Nat.leb_le in E.
    pose proof (greedy_pack_spaced 80 ws ("" +:+ w +:+ " ") Hw) as Hall.
    split_and!.
    + split.
      * intros Hhead.
        destruct (greedy_pack 80 ("" +:+ w +:+ " ") ws) as [|l ls]; [done|].
        injection Hhead as ->. apply Forall_cons in Hall as [Hl _].
        by apply ends_with_space_truthy in Hl.
      * intros (w' & [= <-] & Hlen). lia.
    + destruct (greedy_pack 80 ("" +:+ w +:+ " ") ws) as [|l ls]; [done|].
      by apply Forall_cons in Hall as [_ ?].
    + eapply Forall_impl; [exact Hall|]. by right.
  - apply Nat.leb_gt in E.
    pose proof (greedy_pack_spaced 80 ws (w +:+ " ") Hw) as Hall.
    split_and!.
    + split; [|done]. intros _. exists w. split; [done | lia].
    + done.
    + constructor; [by left|]. eapply Forall_impl; [exact Hall|]. by right.
Qed.

(** X21. A description of whitespace only, the empty one included, puts
    no line of text on the PDF page, and every other description puts at
    least one. *)
Theorem blank_description_gives_no_line (description : string) :
  wrap_description description = [] ↔ all_space description = true.
Proof.
  unfold wrap_description. rewrite wrap_words_greedy. unfold split.
  assert (Hnil : split_go "" description = [] ↔ all_space description = true).
  { rewrite split_go_nil. simpl. tauto. }
  rewrite <- Hnil.
  destruct (split_go "" description) as [|w ws]; [done|]. simpl.
  change (len "") with 0. simpl.
  split; [|done].
  destruct (len w + 1 <=? 80)%nat; [|done].
  intros Hempty. exfalso.
  pose proof (join_greedy_pack 80 ws ("" +:+ w +:+ " ")) as Hjoin.
  rewrite Hempty in Hjoin. simpl in Hjoin.
  apply (f_equal len) in Hjoin. rewrite !len_app in Hjoin. simpl in Hjoin. lia.
Qed.

End WrapProperties.

(** ** The further properties at work *)

Lemma nothing_rendered_before_the_button_witness :
  let L := Demo.library Demo.sales true in
  let i := Runs.idle in
  let cats := ["DrugA"; "DrugB"] in
  uploaded_file i = Some Demo.csv_upload
  ∧ button_pressed i = false
  ∧ load_table L Demo.csv_upload Demo.start = (Runs.loaded, Ok (Runs.indexed, cats))
  ∧ ∃ w2,
      main L i Demo.start = (w2, Ok tt)
      ∧ written Runs.loaded w2 =
          [Header "2. Create Visualization";
           Multiselect "Select drug categories to visualize:" cats
             (default_selection cats);
           Selectbox "Select chart type:"
             [TimeSeries; BoxPlotChart; CorrelationHeatmap; AnnualSales];
           TextInput "Graph Title" "Drug Sales Analysis";
           TextArea "Graph Description (max 80 words):" default_description 400;
           Button "Generate Visualization"]
      ∧ calls w2 = calls Demo.start
      ∧ figures w2 = figures Demo.start
      ∧ files w2 = files Demo.start.
Proof.
  intros L i cats.
  assert (H1 : uploaded_file i = Some Demo.csv_upload) by reflexivity.
  assert (H2 : button_pressed i = false) by reflexivity.
  assert (H3 : load_table L Demo.csv_upload Demo.start
               = (Runs.loaded, Ok (Runs.indexed, cats)))
    by (vm_compute; reflexivity).
  do 3 (split; [assumption|]).
  exact (nothing_rendered_before_the_button L i Demo.csv_upload Demo.start
           Runs.loaded Runs.indexed cats H1 H2 H3).
Defined.

Lemma render_enters_one_renderer_witness :
  let L := Demo.library Demo.sales true in
  let run := render L BoxPlotChart Runs.indexed ["DrugA"; "DrugB"] Runs.loaded in
  run = (run.1, run.2)
  ∧ calls run.1 = calls Runs.loaded ++ [call_of BoxPlotChart]
  ∧ ui run.1 = ui Runs.loaded
  ∧ files run.1 = files Runs.loaded
  ∧ figures Runs.loaded `prefix_of` figures run.1
  ∧ match run.2 with
    | Ok fig =>
        ∃ a, chart L BoxPlotChart Runs.indexed ["DrugA"; "DrugB"] = Ok a
             ∧ figures run.1 = figures Runs.loaded ++ [a]
             ∧ fig = length (figures Runs.loaded)
    | Raise e => chart L BoxPlotChart Runs.indexed ["DrugA"; "DrugB"] = Raise e
    end.
Proof.
  intros L run.
  assert (H : run = (run.1, run.2)) by (vm_compute; reflexivity).
  split; [exact H|].
  exact (render_enters_one_renderer L BoxPlotChart Runs.indexed ["DrugA"; "DrugB"]
           Runs.loaded run.1 run.2 H).
Defined.

Lemma failed_render_figures_witness :
  let L := Demo.library Demo.sales true in
  let run := render L AnnualSales Runs.indexed [] Runs.loaded in
  let e := "no numeric data to plot" in
  run = (run.1, Raise e)
  ∧ length (figures run.1)
    = length (figures Runs.loaded) + left_open L AnnualSales Runs.indexed []
  ∧ left_open L AnnualSales Runs.indexed [] ≤ 1
  ∧ match annual_data L Runs.indexed [] with
    | Ok (years, yearly_sales) =>
        match getitems_every yearly_sales [] with
        | Ok shown => plot_bar L years shown = Raise e
        | Raise e' => e = e'
        end
    | Raise e' => e = e'
    end.
Proof.
  intros L run e.
  assert (H : run = (run.1, Raise e)) by (vm_compute; reflexivity).
  split; [exact H|].
  exact (failed_render_figures L AnnualSales Runs.indexed [] Runs.loaded
           run.1 e H).
Defined.

Lemma time_series_draws_the_selection_witness :
  let L := Demo.library Demo.sales true in
  let sel := ["DrugB"; "DrugA"] in
  sel ⊆ column_names Runs.indexed
  ∧ (∀ n, n ∈ sel → ax_plot L (index Runs.indexed) (column Runs.indexed n) = Ok tt)
  ∧ ∃ a, chart_of (create_time_series_plot L Runs.indexed sel Runs.loaded) = Ok a
         ∧ plots a = column_line Runs.indexed <$> sel
         ∧ line_labels a = sel
         ∧ line_xs a = replicate (length sel) (index Runs.indexed)
         ∧ length (plots a) = length sel.
Proof.
  intros L sel.
  assert (H1 : sel ⊆ column_names Runs.indexed).
  { intros x Hx. vm_compute. vm_compute in Hx.
    apply elem_of_cons in Hx as [->|Hx]; [right; left|].
    apply elem_of_cons in Hx as [->|Hx]; [left|]. by apply elem_of_nil in Hx. }
  assert (H2 : ∀ n, n ∈ sel →
                 ax_plot L (index Runs.indexed) (column Runs.indexed n) = Ok tt)
    by (intros n _; reflexivity).
  do 2 (split; [assumption|]).
  exact (time_series_draws_the_selection L Runs.indexed sel Runs.loaded H1 H2).
Defined.


Lemma missing_column_raises_witness :
  let L := Demo.library Demo.sales true in
  let sel := ["DrugA"; "DrugC"] in
  "DrugC" ∈ sel
  ∧ ("DrugC" ∉ column_names Runs.indexed)
  ∧ (AnnualSales = AnnualSales → "DrugC" ≠ "Year")
  ∧ ∃ w' e, render L AnnualSales Runs.indexed sel Runs.loaded = (w', Raise e).
Proof.
  intros L sel.
  assert (H1 : "DrugC" ∈ sel) by (right; left).
  assert (H2 : "DrugC" ∉ column_names Runs.indexed)
    by (apply (bool_decide_unpack _); vm_compute; exact I).
  assert (H3 : AnnualSales = AnnualSales → "DrugC" ≠ "Year") by (intros _; discriminate).
  do 3 (split; [assumption|]).
  exact (missing_column_raises L AnnualSales Runs.indexed sel "DrugC" Runs.loaded
           H1 H2 H3).
Defined.



Lemma parser_failure_shows_only_the_error_witness :
  let i := Demo.press None TimeSeries in
  let e := "No columns to parse from file" in
  uploaded_file i = Some Demo.csv_upload
  ∧ run_parser Runs.unreadable (choose_parser Demo.csv_upload) Demo.csv_upload
    = Raise e
  ∧ main Runs.unreadable i Demo.start
    = (with_ui (λ l, l ++ [Error (error_message e)]) Demo.start, Ok tt).
Proof.
  intros i e.
  assert (H1 : uploaded_file i = Some Demo.csv_upload) by reflexivity.
  assert (H2 : run_parser Runs.unreadable (choose_parser Demo.csv_upload)
                 Demo.csv_upload = Raise e) by reflexivity.
  do 2 (split; [assumption|]).
  exact (parser_failure_shows_only_the_error Runs.unreadable i Demo.csv_upload
           Demo.start e H1 H2).
Defined.

Lemma unparseable_dates_raise_witness :
  let L := Demo.library Demo.bad_dates true in
  let e := "Unknown datetime string format" in
  run_parser L (choose_parser Demo.csv_upload) Demo.csv_upload = Ok Demo.bad_dates
  ∧ resolve_date_column (column_names Demo.bad_dates) = Some "date"
  ∧ assoc "date" (columns Demo.bad_dates) = Some [0%Z]
  ∧ to_datetime L [0%Z] = Raise e
  ∧ ∃ w',
      load_table L Demo.csv_upload Demo.start = (w', Raise e)
      ∧ written Demo.start w' =
          [Subheader "Data Preview"; Dataframe (head Demo.bad_dates)]
          ++ (if falls_back (column_names Demo.bad_dates)
              then [Warning no_date_warning] else []).
Proof.
  intros L e.
  assert (H1 : run_parser L (choose_parser Demo.csv_upload) Demo.csv_upload
               = Ok Demo.bad_dates) by reflexivity.
  assert (H2 : resolve_date_column (column_names Demo.bad_dates) = Some "date")
    by reflexivity.
  assert (H3 : assoc "date" (columns Demo.bad_dates) = Some [0%Z]) by reflexivity.
  assert (H4 : to_datetime L [0%Z] = Raise e) by reflexivity.
  do 4 (split; [assumption|]).
  exact (unparseable_dates_raise L Demo.csv_upload Demo.start Demo.bad_dates
           "date" [0%Z] e H1 H2 H3 H4).
Defined.

Lemma no_columns_raise_witness :
  let L := Demo.library Runs.no_columns true in
  run_parser L (choose_parser Demo.xls_upload) Demo.xls_upload = Ok Runs.no_columns
  ∧ columns Runs.no_columns = []
  ∧ ∃ w',
      load_table L Demo.xls_upload Demo.start
      = (w', Raise "index 0 is out of bounds for axis 0 with size 0")
      ∧ written Demo.start w' = [Subheader "Data Preview";
                                 Dataframe (head Runs.no_columns);
                                 Warning no_date_warning].
Proof.
  intros L.
  assert (H1 : run_parser L (choose_parser Demo.xls_upload) Demo.xls_upload
               = Ok Runs.no_columns) by reflexivity.
  assert (H2 : columns Runs.no_columns = []) by reflexivity.
  do 2 (split; [assumption|]).
  exact (no_columns_raise L Demo.xls_upload Demo.start Runs.no_columns H1 H2).
Defined.

Lemma report_writers_restore_the_directory_witness :
  let L := Demo.library Demo.sales true in
  let w := Demo.with_chart in
  let w' := with_calls (λ l, l ++ [call_word_report]) w in
  let buf := DocxBuffer (Runs.word_doc "Monthly volumes.") in
  (create_pdf_report L 0 "Monthly volumes." w = (w', Ok buf)
   ∨ create_word_report L 0 "Monthly volumes." w = (w', Ok buf))
  ∧ files w' = files w ∧ ui w' = ui w ∧ figures w' = figures w
  ∧ is_Some (image_payload buf).
Proof.
  intros L w w' buf.
  assert (H : create_pdf_report L 0 "Monthly volumes." w = (w', Ok buf)
              ∨ create_word_report L 0 "Monthly volumes." w = (w', Ok buf))
    by (right; vm_compute; reflexivity).
  split; [exact H|].
  exact (report_writers_restore_the_directory L 0 "Monthly volumes." w w' buf H).
Defined.

Lemma report_failure_leaves_one_file_witness :
  let L := Demo.library Demo.sales false in
  let w := Demo.with_chart in
  let d := "Monthly volumes." in
  let w' := (create_word_report L 0 d w).1 in
  let e := "cannot identify image file" in
  (create_pdf_report L 0 d w = (w', Raise e)
   ∨ create_word_report L 0 d w = (w', Raise e))
  ∧ files w !! fresh (dom (files w)) = None
  ∧ ui w' = ui w ∧ figures w' = figures w
  ∧ (create_pdf_report L 0 d w = (w', Raise e) →
     ∃ content, files w' = <[fresh (dom (files w)) := content]> (files w))
  ∧ (create_word_report L 0 d w = (w', Raise e) →
     match add_paragraph L d with
     | Ok _ => ∃ content, files w' = <[fresh (dom (files w)) := content]> (files w)
     | Raise e' => e = e' ∧ files w' = files w
     end).
Proof.
  intros L w d w' e.
  assert (H : create_pdf_report L 0 d w = (w', Raise e)
              ∨ create_word_report L 0 d w = (w', Raise e))
    by (right; vm_compute; reflexivity).
  split; [exact H|].
  exact (report_failure_leaves_one_file L 0 d w w' e H).
Defined.

Lemma failed_render_stops_before_reports_witness :
  let L := Demo.library Demo.sales true in
  let i := Demo.press (Some ["DrugC"]) CorrelationHeatmap in
  let sel := ["DrugC"] in
  sel ≠ []
  ∧ chart L (chart_type i) Runs.indexed sel = Raise "DrugC"
  ∧ ∃ w',
      generate L i Runs.indexed sel Runs.loaded = (w', Raise "DrugC")
      ∧ written Runs.loaded w' = [Subheader "3. Generated Visualization"]
      ∧ files w' = files Runs.loaded
      ∧ calls w' = calls Runs.loaded ++ [call_of (chart_type i)].
Proof.
  intros L i sel.
  assert (H1 : sel ≠ []) by discriminate.
  assert (H2 : chart L (chart_type i) Runs.indexed sel = Raise "DrugC")
    by reflexivity.
  do 2 (split; [assumption|]).
  exact (failed_render_stops_before_reports L i Runs.indexed sel Runs.loaded
           "DrugC" H1 H2).
Defined.

Lemma failed_pdf_stops_word_report_witness :
  let L := Demo.library Demo.sales false in
  let i := Demo.press None BoxPlotChart in
  let sel := ["DrugA"; "DrugB"] in
  let e := "cannot identify image file" in
  sel ≠ []
  ∧ chart L (chart_type i) Runs.indexed sel = Ok Runs.box_chart
  ∧ savefig L Runs.box_chart "png" 300 "tight" = Ok Demo.png
  ∧ draw_image L Demo.png = Raise e
  ∧ ∃ w',
      generate L i Runs.indexed sel Runs.loaded = (w', Raise e)
      ∧ written Runs.loaded w' = [Subheader "3. Generated Visualization";
                                  Pyplot Runs.box_chart;
                                  Header "4. Download Report"; Columns 2]
      ∧ calls w' = calls Runs.loaded ++ [call_of (chart_type i); call_pdf_report]
      ∧ files w' = <[fresh (dom (files Runs.loaded)) := Demo.png]> (files Runs.loaded).
Proof.
  intros L i sel e.
  assert (H1 : sel ≠ []) by discriminate.
  assert (H2 : chart L (chart_type i) Runs.indexed sel = Ok Runs.box_chart)
    by (vm_compute; reflexivity).
  assert (H3 : savefig L Runs.box_chart "png" 300 "tight" = Ok Demo.png)
    by reflexivity.
  assert (H4 : draw_image L Demo.png = Raise e) by reflexivity.
  do 4 (split; [assumption|]).
  exact (failed_pdf_stops_word_report L i Runs.indexed sel Runs.loaded
           Runs.box_chart Demo.png e H1 H2 H3 H4).
Defined.

Lemma wrapped_lines_cannot_be_merged_witness :
  let d := Runs.long_word +:+ " " +:+ Runs.long_word in
  let l := Runs.long_word +:+ " " in
  Wrap.wrap_description d !! 0 = Some l
  ∧ Wrap.wrap_description d !! 1 = Some l
  ∧ 80 < PyStr.len l + PyStr.len l.
Proof.
  intros d l.
  assert (H1 : Wrap.wrap_description d !! 0 = Some l) by (vm_compute; reflexivity).
  assert (H2 : Wrap.wrap_description d !! 1 = Some l) by (vm_compute; reflexivity).
  do 2 (split; [assumption|]).
  exact (wrapped_lines_cannot_be_merged d 0 l l H1 H2).
Defined.
